(** * cpu.py: an eight-register, 256-cell instruction-set simulator

    The Python class [CPU] is embedded as a record of its attributes and a
    state-and-exception monad over that record.  Python integers are
    unbounded, so every cell, register and the program counter is a [Z].
    Python lists are indexed by integers with the language's own rule for
    negative indices, and an access outside the list raises [IndexError]. *)

From Stdlib Require Import ZArith List Ascii String Bool Lia DecimalString.
Import ListNotations.
Local Open Scope Z_scope.

(** ** Python lists indexed by integers *)

Module PyList.

(** The position an integer index denotes in a list of [len] elements:
    [0 .. len-1] directly, [-len .. -1] counted from the end, nothing
    otherwise. *)
Definition slot (len : nat) (i : Z) : option nat :=
  if (0 <=? i) && (i <? Z.of_nat len) then Some (Z.to_nat i)
  else if (- Z.of_nat len <=? i) && (i <? 0) then Some (Z.to_nat (Z.of_nat len + i))
  else None.

Fixpoint update {A : Type} (l : list A) (n : nat) (v : A) : list A :=
  match l, n with
  | [], _ => []
  | _ :: t, O => v :: t
  | h :: t, S m => h :: update t m v
  end.

(** [l[i]] *)
Definition getitem {A : Type} (l : list A) (i : Z) : option A :=
  match slot (List.length l) i with
  | Some n => nth_error l n
  | None => None
  end.

(** [l[i] = v] *)
Definition setitem {A : Type} (l : list A) (i : Z) (v : A) : option (list A) :=
  match slot (List.length l) i with
  | Some n => Some (update l n v)
  | None => None
  end.

End PyList.

Import PyList.

(** ** Opcodes *)

(** Binary literals, written as the source writes them. *)
Fixpoint bin_digits (acc : Z) (digits : string) : Z :=
  match digits with
  | EmptyString => acc
  | String c rest =>
      bin_digits (2 * acc + (if Ascii.eqb c "1"%char then 1 else 0)) rest
  end.
Notation "'0b' d" := (bin_digits 0 d) (at level 1, d at level 0, only parsing).

Definition HLT : Z := Eval cbv in 0b"00000001".
Definition LDI : Z := Eval cbv in 0b"10000010".
Definition PRN : Z := Eval cbv in 0b"01000111".
Definition MUL : Z := Eval cbv in 0b"10100010".
Definition PUSH : Z := Eval cbv in 0b"01000101".
Definition POP : Z := Eval cbv in 0b"01000110".
Definition CALL : Z := Eval cbv in 0b"01010000".
Definition ADD : Z := Eval cbv in 0b"10100000".
Definition RET : Z := Eval cbv in 0b"00010001".
Definition CMP : Z := Eval cbv in 0b"10100111".
Definition JMP : Z := Eval cbv in 0b"01010100".
Definition JEQ : Z := Eval cbv in 0b"01010101".
Definition JNE : Z := Eval cbv in 0b"01010110".

Definition SP : Z := 7.

(** ** Machine state *)

(** The attributes of a [CPU] object, and the lines the process has
    printed so far ([stdout], which [print] appends to). *)
Record CPU : Type := mkCPU {
  ram : list Z;
  reg : list Z;
  halted : bool;
  pc : Z;
  flags : list Z;
  stdout : list string
}.

Definition with_ram (s : CPU) (m : list Z) : CPU :=
  mkCPU m (reg s) (halted s) (pc s) (flags s) (stdout s).
Definition with_reg (s : CPU) (r : list Z) : CPU :=
  mkCPU (ram s) r (halted s) (pc s) (flags s) (stdout s).
Definition with_halted (s : CPU) (h : bool) : CPU :=
  mkCPU (ram s) (reg s) h (pc s) (flags s) (stdout s).
Definition with_pc (s : CPU) (p : Z) : CPU :=
  mkCPU (ram s) (reg s) (halted s) p (flags s) (stdout s).
Definition with_flags (s : CPU) (f : list Z) : CPU :=
  mkCPU (ram s) (reg s) (halted s) (pc s) f (stdout s).
Definition with_stdout (s : CPU) (o : list string) : CPU :=
  mkCPU (ram s) (reg s) (halted s) (pc s) (flags s) o.

(** ** Exceptions and the execution monad *)

Inductive exn : Type :=
| IndexError
| ValueError
| Exception (msg : string)
| SystemExit (code : Z).

(** What a call leaves behind: a value and the state, or a raised
    exception and the state as it was when it was raised. *)
Inductive res (A : Type) : Type :=
| Ok (a : A) (s : CPU)
| Raise (e : exn) (s : CPU).
Arguments Ok {A} a s.
Arguments Raise {A} e s.

Definition M (A : Type) : Type := CPU -> res A.

Definition pure {A : Type} (a : A) : M A := fun s => Ok a s.
Definition raise {A : Type} (e : exn) : M A := fun s => Raise e s.
Definition bind {A B : Type} (m : M A) (k : A -> M B) : M B :=
  fun s => match m s with
           | Ok a s' => k a s'
           | Raise e s' => Raise e s'
           end.

Declare Scope cpu_scope.
Delimit Scope cpu_scope with cpu.
Notation "x <- m ;; k" := (bind m (fun x => k))
  (at level 61, m at next level, right associativity) : cpu_scope.
Notation "m ;; k" := (bind m (fun _ => k))
  (at level 61, right associativity) : cpu_scope.
Local Open Scope cpu_scope.

(** The state a call ends in, whether it returned or raised. *)
Definition final {A : Type} (r : res A) : CPU :=
  match r with Ok _ s => s | Raise _ s => s end.

(** Attribute and item accesses. *)
Definition get_reg (i : Z) : M Z :=
  fun s => match getitem (reg s) i with
           | Some v => Ok v s
           | None => Raise IndexError s
           end.
Definition set_reg (i v : Z) : M unit :=
  fun s => match setitem (reg s) i v with
           | Some r => Ok tt (with_reg s r)
           | None => Raise IndexError s
           end.
Definition get_ram (i : Z) : M Z :=
  fun s => match getitem (ram s) i with
           | Some v => Ok v s
           | None => Raise IndexError s
           end.
Definition set_ram (i v : Z) : M unit :=
  fun s => match setitem (ram s) i v with
           | Some m => Ok tt (with_ram s m)
           | None => Raise IndexError s
           end.
Definition get_flag (i : Z) : M Z :=
  fun s => match getitem (flags s) i with
           | Some v => Ok v s
           | None => Raise IndexError s
           end.
Definition set_flags (f : list Z) : M unit := fun s => Ok tt (with_flags s f).
Definition get_pc : M Z := fun s => Ok (pc s) s.
Definition set_pc (p : Z) : M unit := fun s => Ok tt (with_pc s p).
Definition set_halted (h : bool) : M unit := fun s => Ok tt (with_halted s h).

(** The interpreter's limit on the number of decimal digits of an integer
    it will turn into text, [sys.get_int_max_str_digits()]. *)
Definition int_max_str_digits : nat := 4300.

(** The number of decimal digits of an integer, its sign apart. *)
Definition digits (z : Z) : nat := Decimal.nb_digits (Decimal.abs (Z.to_int z)).

(** [str] of an integer, also what [print] and an f-string apply to one:
    its decimal text, or [ValueError] when it has more digits than the
    limit.  [print] of one line. *)
Definition str (z : Z) : M string :=
  fun s => if (digits z <=? int_max_str_digits)%nat
           then Ok (NilZero.string_of_int (Z.to_int z)) s
           else Raise ValueError s.
Definition print (line : string) : M unit :=
  fun s => Ok tt (with_stdout s (stdout s ++ [line])).

(** What a method returns: [None], or a string. *)
Inductive pyval : Type :=
| PyNone
| PyStr (v : string).

(** ** The class *)

(** [__init__] *)
Definition init : CPU :=
  mkCPU (repeat 0 256) [0; 0; 0; 0; 0; 0; 0; 0xf4] false 0 [0; 0; 0] [].

(** [load], over the integers that the non-blank lines of the program file
    denote, in file order. *)
Fixpoint load_from (address : Z) (prog : list Z) : M unit :=
  match prog with
  | [] => pure tt
  | v :: rest => set_ram address v ;; load_from (address + 1) rest
  end.
Definition load (prog : list Z) : M unit := load_from 0 prog.

Definition alu (op : string) (reg_a reg_b : Z) : M pyval :=
  if String.eqb op "ADD" then
    x <- get_reg reg_a ;; y <- get_reg reg_b ;; set_reg reg_a (x + y) ;; pure PyNone
  else if String.eqb op "SUB" then
    x <- get_reg reg_a ;; y <- get_reg reg_b ;; set_reg reg_a (x - y) ;; pure PyNone
  else if String.eqb op "MUL" then
    x <- get_reg reg_a ;; y <- get_reg reg_b ;; set_reg reg_a (x * y) ;; pure PyNone
  else if String.eqb op "CMP" then
    x <- get_reg reg_a ;; y <- get_reg reg_b ;;
    (if x =? y then set_flags [0; 0; 1] else pure tt) ;;
    x <- get_reg reg_a ;; y <- get_reg reg_b ;;
    (if x <? y then set_flags [1; 0; 0] else pure tt) ;;
    x <- get_reg reg_a ;; y <- get_reg reg_b ;;
    (if x >? y then set_flags [0; 1; 0] else pure tt) ;;
    pure PyNone
  else raise (Exception "Unsupported ALU operation").

Definition ram_read (address : Z) : M Z := get_ram address.

Definition ram_write (address value : Z) : M Z :=
  set_ram address value ;; get_ram address.

Definition hlt (operand_a operand_b : Z) : M pyval :=
  set_halted true ;; pure PyNone.

Definition ldi (operand_a operand_b : Z) : M pyval :=
  set_reg operand_a operand_b ;; pure PyNone.

Definition prn (operand_a operand_b : Z) : M pyval :=
  v <- get_reg operand_a ;; text <- str v ;; print text ;; pure PyNone.

Definition mul (operand_a operand_b : Z) : M pyval :=
  alu "MUL" operand_a operand_b ;; pure PyNone.

Definition push (operand_a operand_b : Z) : M pyval :=
  sp <- get_reg SP ;; set_reg SP (sp - 1) ;;
  value <- get_reg operand_a ;;
  sp <- get_reg SP ;; ram_write sp value ;;
  pure PyNone.

Definition pop (operand_a operand_b : Z) : M pyval :=
  sp <- get_reg SP ;;
  if sp =? 0xF4 then pure (PyStr "Empty Stack")
  else
    sp <- get_reg SP ;; value <- ram_read sp ;;
    set_reg operand_a value ;;
    sp <- get_reg SP ;; set_reg SP (sp + 1) ;;
    pure PyNone.

Definition call (operand_a operand_b : Z) : M pyval :=
  p <- get_pc ;;
  let return_addr := p + 2 in
  sp <- get_reg SP ;; set_reg SP (sp - 1) ;;
  top_of_stack_addr <- get_reg SP ;;
  sp <- get_reg SP ;; ram_write sp return_addr ;;
  p <- get_pc ;; reg_num <- get_ram (p + 1) ;;
  subroutine_addr <- get_reg reg_num ;;
  set_pc subroutine_addr ;;
  pure PyNone.

Definition add (operand_a operand_b : Z) : M pyval :=
  alu "ADD" operand_a operand_b ;; pure PyNone.

Definition ret (operand_a operand_b : Z) : M pyval :=
  value <- get_reg SP ;;
  return_addr <- get_ram value ;;
  sp <- get_reg SP ;; set_reg SP (sp + 1) ;;
  target <- get_ram value ;;
  set_pc target ;;
  pure PyNone.

Definition cmp (operand_a operand_b : Z) : M pyval :=
  alu "CMP" operand_a operand_b ;; pure PyNone.

Definition jmp (operand_a operand_b : Z) : M pyval :=
  target <- get_reg operand_a ;; set_pc target ;; pure PyNone.

Definition jeq (operand_a operand_b : Z) : M pyval :=
  e <- get_flag 2 ;;
  if negb (e =? 0) then
    target <- get_reg operand_a ;; set_pc target ;; pure PyNone
  else
    p <- get_pc ;; set_pc (p + 2) ;; pure PyNone.

Definition jne (operand_a operand_b : Z) : M pyval :=
  e <- get_flag 2 ;;
  if e =? 0 then
    target <- get_reg operand_a ;; set_pc target ;; pure PyNone
  else
    p <- get_pc ;; set_pc (p + 2) ;; pure PyNone.

(** ** Dispatch *)

Definition handler : Type := Z -> Z -> M pyval.

(** The dictionary [__init__] fills, in insertion order. *)
Definition branchtable : list (Z * handler) :=
  [ (HLT, hlt); (LDI, ldi); (PRN, prn); (CMP, cmp); (JEQ, jeq); (ADD, add);
    (MUL, mul); (PUSH, push); (POP, pop); (RET, ret); (CALL, call);
    (JMP, jmp); (JNE, jne) ].

Fixpoint lookup (table : list (Z * handler)) (key : Z) : option handler :=
  match table with
  | [] => None
  | (k, h) :: rest => if k =? key then Some h else lookup rest key
  end.

(** ** The execution engine *)

Definition instruction_size (instruction : Z) : Z :=
  Z.shiftr (Z.land instruction 0b"11000000") 6 + 1.

(** The three reads that open a cycle. *)
Definition fetch : M (Z * Z * Z) :=
  p <- get_pc ;; instruction <- ram_read p ;;
  p <- get_pc ;; operand_a <- ram_read (p + 1) ;;
  p <- get_pc ;; operand_b <- ram_read (p + 2) ;;
  pure (instruction, operand_a, operand_b).

Definition dispatch (instruction operand_a operand_b : Z) : M pyval :=
  match lookup branchtable instruction with
  | Some h => h operand_a operand_b
  | None =>
      instruction_text <- str instruction ;;
      p <- get_pc ;; address_text <- str p ;;
      print ("unknown instruction: " ++ instruction_text ++
             " at address " ++ address_text) ;;
      raise (SystemExit 1)
  end.

Definition advance (instruction : Z) : M unit :=
  if negb (Z.land (Z.shiftr instruction 4) 0b"1" =? 1) then
    p <- get_pc ;; set_pc (p + instruction_size instruction)
  else pure tt.

(** The body of the [while] loop of [run]. *)
Definition cycle : M unit :=
  f <- fetch ;;
  let '(instruction, operand_a, operand_b) := f in
  dispatch instruction operand_a operand_b ;;
  advance instruction.

(** [run], for at most [fuel] cycles; [None] when the loop is still going
    after that many. *)
Fixpoint run (fuel : nat) (s : CPU) : option (res unit) :=
  if halted s then Some (Ok tt s)
  else match fuel with
       | O => None
       | S n => match cycle s with
                | Ok _ s' => run n s'
                | Raise e s' => Some (Raise e s')
                end
       end.

(** The states the engine can be in: a program loaded into a fresh machine,
    followed by any number of cycles taken while not halted. *)
Inductive reachable : CPU -> Prop :=
| reach_load (prog : list Z) (s : CPU) :
    load prog init = Ok tt s -> reachable s
| reach_cycle (s s' : CPU) :
    reachable s -> halted s = false -> cycle s = Ok tt s' -> reachable s'.

(** ** Example machines *)

(** [LDI R0,6; CALL R0; HLT; RET], after its first cycle. *)
Definition call_example : CPU :=
  with_pc (with_reg (final (load [LDI; 0; 6; CALL; 0; HLT; RET] init))
                    [6; 0; 0; 0; 0; 0; 0; 244])
          3.

(** A CALL at address 0 whose stack slot is the cell of its own operand. *)
Definition call_on_own_operand : CPU :=
  mkCPU (CALL :: 0 :: repeat 0 254) [10; 0; 20; 0; 0; 0; 0; 2] false 0
        [0; 0; 0] [].

(** [LDI R0,254; JMP R0], run for its two cycles. *)
Definition jump_to_254 : CPU :=
  final (cycle (final (cycle (final (load [LDI; 0; 254; JMP; 0] init))))).

(** ** Tactics *)

(** Unfold the monad and the state accessors, leaving list accesses. *)
Ltac unfold_m :=
  unfold ram_write, ram_read, bind, pure, raise, get_reg, set_reg, get_ram,
    set_ram, get_flag, set_flags, get_pc, set_pc, set_halted, print, str in *;
  cbn [ram reg halted pc flags stdout
       with_ram with_reg with_halted with_pc with_flags with_stdout] in *.

(** Run as far as the list accesses recorded in the context allow. *)
Ltac exec :=
  repeat (progress (unfold_m;
                    repeat match goal with
                           | H : getitem _ _ = Some _ |- _ => rewrite H
                           | H : setitem _ _ _ = Some _ |- _ => rewrite H
                           | H : slot _ _ = Some _ |- _ => rewrite H
                           end)).

(** Case analysis on every list access and test a handler performs. *)
Ltac by_cases :=
  unfold_m;
  repeat (match goal with
          | |- context [getitem ?l ?i] => destruct (getitem l i) eqn:?
          | |- context [setitem ?l ?i ?v] => destruct (setitem l i v) eqn:?
          | |- context [if ?b then _ else _] => destruct b eqn:?
          end; unfold_m).

Ltac unfold_handlers :=
  unfold hlt, ldi, prn, mul, add, cmp, push, pop, call, ret, jmp, jeq, jne, alu;
  cbn [String.eqb Ascii.eqb Bool.eqb].

(** * Properties *)

(** ** Lists *)

Section ListFacts.
Context {A : Type}.
Implicit Types (l : list A) (i : Z) (n m : nat) (v w : A).

Lemma slot_lt (len : nat) i n : slot len i = Some n -> (n < len)%nat.
Proof.
  unfold slot. intros H.
  destruct ((0 <=? i) && (i <? Z.of_nat len)) eqn:E1.
  - injection H as <-. apply andb_prop in E1 as [? ?]. lia.
  - destruct ((- Z.of_nat len <=? i) && (i <? 0)) eqn:E2; [|discriminate].
    injection H as <-. apply andb_prop in E2 as [? ?]. lia.
Qed.

Lemma slot_range (len : nat) i n :
  slot len i = Some n -> - Z.of_nat len <= i < Z.of_nat len.
Proof.
  unfold slot. intros H.
  destruct ((0 <=? i) && (i <? Z.of_nat len)) eqn:E1.
  - apply andb_prop in E1 as [? ?]. lia.
  - destruct ((- Z.of_nat len <=? i) && (i <? 0)) eqn:E2; [|discriminate].
    apply andb_prop in E2 as [? ?]. lia.
Qed.

Lemma slot_in_range (len : nat) i :
  - Z.of_nat len <= i < Z.of_nat len -> exists n, slot len i = Some n.
Proof.
  intros H. unfold slot.
  destruct ((0 <=? i) && (i <? Z.of_nat len)) eqn:E1; [eauto|].
  destruct ((- Z.of_nat len <=? i) && (i <? 0)) eqn:E2; [eauto|].
  apply andb_false_iff in E1, E2. lia.
Qed.

Lemma update_length l n v : List.length (update l n v) = List.length l.
Proof.
  revert n. induction l as [|h t IH]; intros [|n]; simpl; auto.
Qed.

Lemma nth_error_update_same l n v :
  (n < List.length l)%nat -> nth_error (update l n v) n = Some v.
Proof.
  revert n. induction l as [|h t IH]; intros [|n] H; simpl in *; try lia; auto.
  apply IH. lia.
Qed.

Lemma nth_error_update_other l n m v :
  n <> m -> nth_error (update l n v) m = nth_error l m.
Proof.
  revert n m. induction l as [|h t IH]; intros [|n] [|m] H; simpl; auto;
    try congruence.
Qed.

Lemma update_update l n v w : update (update l n v) n w = update l n w.
Proof.
  revert n. induction l as [|h t IH]; intros [|n]; simpl; auto.
  now rewrite IH.
Qed.

Lemma update_id l n v : nth_error l n = Some v -> update l n v = l.
Proof.
  revert n. induction l as [|h t IH]; intros [|n] H; simpl in *; try congruence.
  now rewrite IH.
Qed.

Lemma getitem_slot l i v :
  getitem l i = Some v ->
  exists n, slot (List.length l) i = Some n /\ nth_error l n = Some v.
Proof.
  unfold getitem. destruct (slot (List.length l) i) as [n|]; [eauto|discriminate].
Qed.

Lemma slot_getitem l i n :
  slot (List.length l) i = Some n -> exists v, getitem l i = Some v.
Proof.
  intros H. unfold getitem. rewrite H.
  destruct (nth_error l n) eqn:E; [eauto|].
  apply nth_error_None in E. apply slot_lt in H. lia.
Qed.

Lemma setitem_slot l i n v :
  slot (List.length l) i = Some n -> setitem l i v = Some (update l n v).
Proof. intros H. unfold setitem. now rewrite H. Qed.

Lemma getitem_update_same l i n v :
  slot (List.length l) i = Some n -> getitem (update l n v) i = Some v.
Proof.
  intros H. unfold getitem. rewrite update_length, H.
  apply nth_error_update_same. eapply slot_lt; eauto.
Qed.

Lemma getitem_update_other l i n m v :
  slot (List.length l) i = Some m -> n <> m ->
  getitem (update l n v) i = getitem l i.
Proof.
  intros H Hne. unfold getitem. rewrite update_length, H.
  now apply nth_error_update_other.
Qed.

End ListFacts.

(** ** Running monadic code *)

Lemma bind_Ok {A B : Type} (m : M A) (k : A -> M B) (s s' : CPU) (a : A) :
  m s = Ok a s' -> bind m k s = k a s'.
Proof. intros H. unfold bind. now rewrite H. Qed.

(** ** The ALU *)

(** C2. For register indices [reg_a] and [reg_b] that denote registers,
    holding [va] and [vb], the Compare operation returns with nothing but
    the flags changed, and the flags are [[1,0,0]] exactly when [va < vb],
    [[0,1,0]] exactly when [va > vb], and [[0,0,1]] exactly when
    [va = vb]: always one of these three lists, so exactly one flag is 1
    and the other two are 0.  The CMP handler does the same. *)
Theorem compare_sets_exactly_one_flag (s : CPU) (reg_a reg_b va vb : Z) :
  getitem (reg s) reg_a = Some va ->
  getitem (reg s) reg_b = Some vb ->
  exists f : list Z,
    alu "CMP" reg_a reg_b s = Ok PyNone (with_flags s f) /\
    cmp reg_a reg_b s = Ok PyNone (with_flags s f) /\
    (f = [1; 0; 0] \/ f = [0; 1; 0] \/ f = [0; 0; 1]) /\
    (f = [1; 0; 0] <-> va < vb) /\
    (f = [0; 1; 0] <-> va > vb) /\
    (f = [0; 0; 1] <-> va = vb).
Proof.
  intros Ha Hb. unfold cmp, alu. cbn [String.eqb Ascii.eqb Bool.eqb].
  destruct (Z.compare_spec va vb) as [E | L | G].
  - exists [0; 0; 1]. subst vb. exec.
    rewrite Z.eqb_refl. exec. rewrite Z.ltb_irrefl. exec.
    rewrite Z.gtb_ltb, Z.ltb_irrefl.
    repeat split; auto; try discriminate; lia.
  - exists [1; 0; 0]. exec.
    replace (va =? vb) with false by (symmetry; apply Z.eqb_neq; lia).
    exec. replace (va <? vb) with true by (symmetry; apply Z.ltb_lt; lia).
    exec. replace (va >? vb) with false by (rewrite Z.gtb_ltb; symmetry; apply Z.ltb_ge; lia).
    repeat split; auto; try discriminate; lia.
  - exists [0; 1; 0]. exec.
    replace (va =? vb) with false by (symmetry; apply Z.eqb_neq; lia).
    exec. replace (va <? vb) with false by (symmetry; apply Z.ltb_ge; lia).
    exec. replace (va >? vb) with true by (rewrite Z.gtb_ltb; symmetry; apply Z.ltb_lt; lia).
    repeat split; auto; try discriminate; lia.
Qed.

Lemma compare_sets_exactly_one_flag_witness :
  let s := with_reg init [3; 5; 0; 0; 0; 0; 0; 244] in
  getitem (reg s) 0 = Some 3 /\
  getitem (reg s) 1 = Some 5 /\
  exists f : list Z,
    alu "CMP" 0 1 s = Ok PyNone (with_flags s f) /\
    cmp 0 1 s = Ok PyNone (with_flags s f) /\
    (f = [1; 0; 0] \/ f = [0; 1; 0] \/ f = [0; 0; 1]) /\
    (f = [1; 0; 0] <-> 3 < 5) /\
    (f = [0; 1; 0] <-> 3 > 5) /\
    (f = [0; 0; 1] <-> 3 = 5).
Proof.
  intros s. split; [reflexivity | split; [reflexivity |]].
  apply (compare_sets_exactly_one_flag s 0 1 3 5); reflexivity.
Defined.

(** An in-place arithmetic update of [reg_a] by [reg_b]. *)
Lemma alu_add (s : CPU) (reg_a reg_b va vb : Z) :
  getitem (reg s) reg_a = Some va ->
  getitem (reg s) reg_b = Some vb ->
  exists r, setitem (reg s) reg_a (va + vb) = Some r /\
            alu "ADD" reg_a reg_b s = Ok PyNone (with_reg s r) /\
            getitem r reg_a = Some (va + vb).
Proof.
  intros Ha Hb. destruct (getitem_slot _ _ _ Ha) as (n & Hn & _).
  exists (update (reg s) n (va + vb)). split; [now apply setitem_slot|].
  split; [|now apply getitem_update_same].
  unfold alu. cbn [String.eqb Ascii.eqb Bool.eqb]. exec.
  now rewrite (setitem_slot _ _ _ _ Hn).
Qed.

Lemma alu_mul (s : CPU) (reg_a reg_b va vb : Z) :
  getitem (reg s) reg_a = Some va ->
  getitem (reg s) reg_b = Some vb ->
  exists r, setitem (reg s) reg_a (va * vb) = Some r /\
            alu "MUL" reg_a reg_b s = Ok PyNone (with_reg s r) /\
            getitem r reg_a = Some (va * vb).
Proof.
  intros Ha Hb. destruct (getitem_slot _ _ _ Ha) as (n & Hn & _).
  exists (update (reg s) n (va * vb)). split; [now apply setitem_slot|].
  split; [|now apply getitem_update_same].
  unfold alu. cbn [String.eqb Ascii.eqb Bool.eqb]. exec.
  now rewrite (setitem_slot _ _ _ _ Hn).
Qed.

(** C8. With [reg_a] holding [va] and [reg_b] holding [vb], ADD stores the
    integer [va + vb] in [reg_a] and MUL stores [va * vb], whatever their
    size; nothing else changes.  Taken from the same state with the
    operands swapped, each stores the same number in [reg_b]. *)
Theorem add_mul_exact_and_commutative (s : CPU) (reg_a reg_b va vb : Z) :
  getitem (reg s) reg_a = Some va ->
  getitem (reg s) reg_b = Some vb ->
  exists add_ab add_ba mul_ab mul_ba : list Z,
    (alu "ADD" reg_a reg_b s = Ok PyNone (with_reg s add_ab) /\
     setitem (reg s) reg_a (va + vb) = Some add_ab /\
     getitem add_ab reg_a = Some (va + vb)) /\
    (alu "MUL" reg_a reg_b s = Ok PyNone (with_reg s mul_ab) /\
     setitem (reg s) reg_a (va * vb) = Some mul_ab /\
     getitem mul_ab reg_a = Some (va * vb)) /\
    (alu "ADD" reg_b reg_a s = Ok PyNone (with_reg s add_ba) /\
     getitem add_ba reg_b = getitem add_ab reg_a) /\
    (alu "MUL" reg_b reg_a s = Ok PyNone (with_reg s mul_ba) /\
     getitem mul_ba reg_b = getitem mul_ab reg_a).
Proof.
  intros Ha Hb.
  destruct (alu_add s _ _ _ _ Ha Hb) as (r1 & S1 & E1 & G1).
  destruct (alu_add s _ _ _ _ Hb Ha) as (r2 & S2 & E2 & G2).
  destruct (alu_mul s _ _ _ _ Ha Hb) as (r3 & S3 & E3 & G3).
  destruct (alu_mul s _ _ _ _ Hb Ha) as (r4 & S4 & E4 & G4).
  exists r1, r2, r3, r4. repeat split; auto.
  - rewrite G1, G2. f_equal. lia.
  - rewrite G3, G4. f_equal. lia.
Qed.

Lemma add_mul_exact_and_commutative_witness :
  let s := with_reg init [200; 201; 0; 0; 0; 0; 0; 244] in
  getitem (reg s) 0 = Some 200 /\
  getitem (reg s) 1 = Some 201 /\
  exists add_ab add_ba mul_ab mul_ba : list Z,
    (alu "ADD" 0 1 s = Ok PyNone (with_reg s add_ab) /\
     setitem (reg s) 0 (200 + 201) = Some add_ab /\
     getitem add_ab 0 = Some (200 + 201)) /\
    (alu "MUL" 0 1 s = Ok PyNone (with_reg s mul_ab) /\
     setitem (reg s) 0 (200 * 201) = Some mul_ab /\
     getitem mul_ab 0 = Some (200 * 201)) /\
    (alu "ADD" 1 0 s = Ok PyNone (with_reg s add_ba) /\
     getitem add_ba 1 = getitem add_ab 0) /\
    (alu "MUL" 1 0 s = Ok PyNone (with_reg s mul_ba) /\
     getitem mul_ba 1 = getitem mul_ab 0).
Proof.
  intros s. split; [reflexivity | split; [reflexivity |]].
  apply (add_mul_exact_and_commutative s 0 1 200 201); reflexivity.
Defined.

(** The ADD and MUL handlers are those ALU operations. *)
Lemma add_is_alu (s : CPU) (operand_a operand_b va vb : Z) :
  getitem (reg s) operand_a = Some va ->
  getitem (reg s) operand_b = Some vb ->
  add operand_a operand_b s = alu "ADD" operand_a operand_b s /\
  mul operand_a operand_b s = alu "MUL" operand_a operand_b s.
Proof.
  intros Ha Hb.
  destruct (alu_add s _ _ _ _ Ha Hb) as (r1 & _ & E1 & _).
  destruct (alu_mul s _ _ _ _ Ha Hb) as (r3 & _ & E3 & _).
  unfold add, mul.
  now rewrite (bind_Ok _ _ _ _ _ E1), (bind_Ok _ _ _ _ _ E3), E1, E3.
Qed.

(** ** What the handlers leave alone *)

Lemma setitem_length {A : Type} (l l' : list A) (i : Z) (v : A) :
  setitem l i v = Some l' -> List.length l' = List.length l.
Proof.
  unfold setitem. destruct (slot (List.length l) i); [|discriminate].
  intros [= <-]. apply update_length.
Qed.

Lemma lookup_branchtable (opcode : Z) (h : handler) :
  lookup branchtable opcode = Some h ->
  (opcode = HLT /\ h = hlt) \/ (opcode = LDI /\ h = ldi) \/
  (opcode = PRN /\ h = prn) \/ (opcode = CMP /\ h = cmp) \/
  (opcode = JEQ /\ h = jeq) \/ (opcode = ADD /\ h = add) \/
  (opcode = MUL /\ h = mul) \/ (opcode = PUSH /\ h = push) \/
  (opcode = POP /\ h = pop) \/ (opcode = RET /\ h = ret) \/
  (opcode = CALL /\ h = call) \/ (opcode = JMP /\ h = jmp) \/
  (opcode = JNE /\ h = jne).
Proof.
  unfold branchtable, lookup. intros H.
  repeat match type of H with
         | (if ?k =? opcode then _ else _) = _ =>
             destruct (Z.eqb_spec k opcode) as [<- | _];
             [injection H as <-; tauto |]
         end.
  discriminate.
Qed.

(** C9. Whatever the state and the operands, and whether it returns or
    raises, a handler of the dispatch table other than the one for CMP
    ends with the flags it started with. *)
Theorem flags_changed_only_by_cmp
    (opcode : Z) (h : handler) (operand_a operand_b : Z) (s : CPU) :
  lookup branchtable opcode = Some h ->
  opcode <> CMP ->
  flags (final (h operand_a operand_b s)) = flags s.
Proof.
  intros H Hne. apply lookup_branchtable in H.
  repeat destruct H as [H | H]; destruct H as [-> ->];
    try congruence; unfold_handlers; by_cases; reflexivity.
Qed.

Lemma flags_changed_only_by_cmp_witness :
  let s := with_flags init [0; 0; 1] in
  lookup branchtable PUSH = Some push /\
  PUSH <> CMP /\
  flags (final (push 0 0 s)) = flags s.
Proof.
  intros s. split; [reflexivity | split; [discriminate |]].
  apply (flags_changed_only_by_cmp PUSH push 0 0 s); [reflexivity | discriminate].
Defined.

(** Memory and the register file keep their sizes. *)
Lemma handlers_keep_sizes
    (opcode : Z) (h : handler) (operand_a operand_b : Z) (s : CPU) :
  lookup branchtable opcode = Some h ->
  List.length (ram (final (h operand_a operand_b s))) = List.length (ram s) /\
  List.length (reg (final (h operand_a operand_b s))) = List.length (reg s).
Proof.
  intros H. apply lookup_branchtable in H.
  repeat destruct H as [H | H]; destruct H as [-> ->];
    unfold_handlers; by_cases; cbn [final]; unfold_m;
    repeat match goal with
           | E : setitem _ _ _ = Some _ |- _ => apply setitem_length in E
           end; split; congruence.
Qed.

(** ** The stack *)

Lemma slot_nonneg (len : nat) (i : Z) (n : nat) :
  0 <= i -> slot len i = Some n -> n = Z.to_nat i.
Proof.
  unfold slot. intros Hi H.
  destruct ((0 <=? i) && (i <? Z.of_nat len)); [congruence|].
  destruct ((- Z.of_nat len <=? i) && (i <? 0)) eqn:E; [|discriminate].
  apply andb_prop in E as [_ E]. apply Z.ltb_lt in E. lia.
Qed.

(** Reading the stack pointer tells where register 7 is. *)
Lemma slot_SP (s : CPU) (v : Z) :
  getitem (reg s) SP = Some v ->
  slot (List.length (reg s)) SP = Some 7%nat /\ nth_error (reg s) 7 = Some v.
Proof.
  intros H. destruct (getitem_slot _ _ _ H) as (n & Hn & Hv).
  apply slot_nonneg in Hn as E; [|unfold SP; lia].
  change (Z.to_nat SP) with 7%nat in E. subst n. auto.
Qed.

(** PUSH, when the stack pointer holds [S], [operand_a] denotes register
    [k] and [S - 1] denotes memory cell [m]. *)
Lemma push_run (s : CPU) (operand_a operand_b S : Z) (k m : nat) :
  getitem (reg s) SP = Some S ->
  slot (List.length (reg s)) operand_a = Some k ->
  slot (List.length (ram s)) (S - 1) = Some m ->
  exists v : Z,
    nth_error (update (reg s) 7 (S - 1)) k = Some v /\
    push operand_a operand_b s =
      Ok PyNone (with_ram (with_reg s (update (reg s) 7 (S - 1)))
                          (update (ram s) m v)).
Proof.
  intros HS Hk Hm. destruct (slot_SP _ _ HS) as (H7 & _).
  assert (Hk' : slot (List.length (update (reg s) 7 (S - 1))) operand_a = Some k)
    by now rewrite update_length.
  destruct (slot_getitem _ _ _ Hk') as (v & Hv).
  exists v. split.
  - unfold getitem in Hv. now rewrite Hk' in Hv.
  - unfold push. unfold_m. rewrite HS. unfold_m.
    rewrite (setitem_slot _ _ _ _ H7). unfold_m. rewrite Hv. unfold_m.
    rewrite (getitem_update_same _ _ _ _ H7). unfold_m.
    rewrite (setitem_slot _ _ _ _ Hm). unfold_m.
    now rewrite (getitem_update_same _ _ _ _ Hm).
Qed.

(** C10, as the code has it.  With the stack pointer holding [S], [S - 1]
    denoting a memory cell and [operand_a] denoting a register, PUSH
    returns and changes two things: register 7 becomes [S - 1], and the
    cell [S - 1] denotes receives the value [operand_a]'s register holds
    once the stack pointer has been decremented, which is that register's
    original value unless it is register 7 itself, and [S - 1] then.
    Every other register and cell, the flags, the halted flag, the program
    counter and the output are as before. *)
Theorem push_changes_sp_and_one_cell
    (s : CPU) (operand_a operand_b S : Z) (k m : nat) :
  getitem (reg s) SP = Some S ->
  slot (List.length (reg s)) operand_a = Some k ->
  slot (List.length (ram s)) (S - 1) = Some m ->
  exists (v : Z) (s' : CPU),
    push operand_a operand_b s = Ok PyNone s' /\
    (k <> 7%nat -> getitem (reg s) operand_a = Some v) /\
    (k = 7%nat -> v = S - 1) /\
    getitem (reg s') SP = Some (S - 1) /\
    getitem (ram s') (S - 1) = Some v /\
    (forall j : nat, j <> 7%nat -> nth_error (reg s') j = nth_error (reg s) j) /\
    (forall j : nat, j <> m -> nth_error (ram s') j = nth_error (ram s) j) /\
    List.length (reg s') = List.length (reg s) /\
    List.length (ram s') = List.length (ram s) /\
    flags s' = flags s /\ halted s' = halted s /\ pc s' = pc s /\
    stdout s' = stdout s.
Proof.
  intros HS Hk Hm.
  destruct (push_run s operand_a operand_b S k m HS Hk Hm) as (v & Hv & E).
  destruct (slot_SP _ _ HS) as (H7 & _).
  eexists v, _. split; [exact E|]. cbn [ram reg halted pc flags stdout with_ram with_reg].
  repeat split.
  - intros Hne. rewrite nth_error_update_other in Hv by congruence.
    unfold getitem. now rewrite Hk.
  - intros ->. rewrite nth_error_update_same in Hv by (eapply slot_lt; eauto).
    congruence.
  - now apply getitem_update_same.
  - now apply getitem_update_same.
  - intros j Hj. apply nth_error_update_other. congruence.
  - intros j Hj. apply nth_error_update_other. congruence.
  - apply update_length.
  - apply update_length.
Qed.

Lemma push_changes_sp_and_one_cell_witness :
  let s := with_reg init [42; 0; 0; 0; 0; 0; 0; 244] in
  getitem (reg s) SP = Some 244 /\
  slot (List.length (reg s)) 0 = Some 0%nat /\
  slot (List.length (ram s)) (244 - 1) = Some 243%nat /\
  exists (v : Z) (s' : CPU),
    push 0 0 s = Ok PyNone s' /\
    (0%nat <> 7%nat -> getitem (reg s) 0 = Some v) /\
    (0%nat = 7%nat -> v = 244 - 1) /\
    getitem (reg s') SP = Some (244 - 1) /\
    getitem (ram s') (244 - 1) = Some v /\
    (forall j : nat, j <> 7%nat -> nth_error (reg s') j = nth_error (reg s) j) /\
    (forall j : nat, j <> 243%nat -> nth_error (ram s') j = nth_error (ram s) j) /\
    List.length (reg s') = List.length (reg s) /\
    List.length (ram s') = List.length (ram s) /\
    flags s' = flags s /\ halted s' = halted s /\ pc s' = pc s /\
    stdout s' = stdout s.
Proof.
  intros s. repeat (split; [reflexivity|]).
  apply (push_changes_sp_and_one_cell s 0 0 244 0 243); reflexivity.
Defined.

(** Pushing register 7 itself from a fresh machine: the stack pointer held
    244 when PUSH began, and cell 243 receives 243, the decremented
    value. *)
Lemma push_of_sp_stores_decremented_value :
  getitem (reg init) SP = Some 244 /\
  exists s' : CPU,
    push SP 0 init = Ok PyNone s' /\
    getitem (reg s') SP = Some 243 /\
    getitem (ram s') 243 = Some 243 /\
    getitem (ram s') 243 <> getitem (reg init) SP.
Proof.
  split; [reflexivity|]. eexists. split; [vm_compute; reflexivity|].
  split; [reflexivity|]. split; [reflexivity|]. vm_compute. discriminate.
Qed.

(** C4, as the code has it.  With the stack pointer holding [S], [S - 1]
    denoting a memory cell other than 0xF4 and [operand_a] denoting a
    register, PUSH followed at once by POP of the same register returns
    and leaves every register as it was: the popped register has its
    original value and the stack pointer is [S] again. *)
Theorem push_then_pop_restores
    (s : CPU) (operand_a operand_b S : Z) (k m : nat) :
  getitem (reg s) SP = Some S ->
  slot (List.length (reg s)) operand_a = Some k ->
  slot (List.length (ram s)) (S - 1) = Some m ->
  S - 1 <> 0xF4 ->
  exists s' : CPU,
    (push operand_a operand_b ;; pop operand_a operand_b) s = Ok PyNone s' /\
    reg s' = reg s /\
    getitem (reg s') operand_a = getitem (reg s) operand_a /\
    getitem (reg s') SP = Some S.
Proof.
  intros HS Hk Hm Hne.
  destruct (push_run s operand_a operand_b S k m HS Hk Hm) as (v & Hv & E).
  destruct (slot_SP _ _ HS) as (H7 & HS7).
  exists (with_ram s (update (ram s) m v)).
  cbn [reg with_ram]. split; [|split; [reflexivity | split; [reflexivity | exact HS]]].
  rewrite (bind_Ok _ _ _ _ _ E). unfold pop. unfold_m.
  rewrite (getitem_update_same _ _ _ _ H7). unfold_m.
  destruct (Z.eqb_spec (S - 1) 244) as [Heq | _]; [contradiction|]. unfold_m.
  rewrite (getitem_update_same _ _ _ _ H7). unfold_m.
  rewrite (getitem_update_same _ _ _ _ Hm). unfold_m.
  assert (Hk' : slot (List.length (update (reg s) 7 (S - 1))) operand_a = Some k)
    by now rewrite update_length.
  rewrite (setitem_slot _ _ _ _ Hk'). unfold_m.
  rewrite (update_id _ _ _ Hv).
  rewrite (getitem_update_same _ _ _ _ H7). unfold_m.
  assert (H7' : slot (List.length (update (reg s) 7 (S - 1))) SP = Some 7%nat)
    by now rewrite update_length.
  rewrite (setitem_slot _ _ _ _ H7'). unfold_m.
  rewrite update_update. replace (S - 1 + 1) with S by lia.
  rewrite (update_id _ _ _ HS7). reflexivity.
Qed.

Lemma push_then_pop_restores_witness :
  let s := with_reg init [42; 0; 0; 0; 0; 0; 0; 244] in
  getitem (reg s) SP = Some 244 /\
  slot (List.length (reg s)) 0 = Some 0%nat /\
  slot (List.length (ram s)) (244 - 1) = Some 243%nat /\
  244 - 1 <> 0xF4 /\
  exists s' : CPU,
    (push 0 0 ;; pop 0 0) s = Ok PyNone s' /\
    reg s' = reg s /\
    getitem (reg s') 0 = getitem (reg s) 0 /\
    getitem (reg s') SP = Some 244.
Proof.
  intros s. repeat (split; [reflexivity|]). split; [discriminate|].
  apply (push_then_pop_restores s 0 0 244 0 243);
    [reflexivity | reflexivity | reflexivity | discriminate].
Defined.

(** With the stack pointer at 0xF5, PUSH brings it to 0xF4, where POP
    takes the stack to be empty: it returns its marker and the stack
    pointer stays at 0xF4. *)
Lemma push_then_pop_at_0xF5 :
  let s := with_reg init [42; 0; 0; 0; 0; 0; 0; 0xF5] in
  getitem (reg s) SP = Some 245 /\
  exists s' : CPU,
    (push 0 0 ;; pop 0 0) s = Ok (PyStr "Empty Stack") s' /\
    getitem (reg s') SP = Some 244 /\
    getitem (reg s') SP <> getitem (reg s) SP.
Proof.
  intros s. split; [reflexivity|]. eexists.
  split; [vm_compute; reflexivity|].
  split; [reflexivity|]. vm_compute. discriminate.
Qed.

(** ** One cycle of the engine *)

Lemma fetch_inv (s s' : CPU) (instruction operand_a operand_b : Z) :
  fetch s = Ok (instruction, operand_a, operand_b) s' ->
  s' = s /\
  getitem (ram s) (pc s) = Some instruction /\
  getitem (ram s) (pc s + 1) = Some operand_a /\
  getitem (ram s) (pc s + 2) = Some operand_b.
Proof.
  unfold fetch. unfold_m.
  destruct (getitem (ram s) (pc s)); [|discriminate].
  destruct (getitem (ram s) (pc s + 1)); [|discriminate].
  destruct (getitem (ram s) (pc s + 2)); [|discriminate].
  intros [= -> -> -> ->]. auto.
Qed.

Lemma fetch_Ok (s : CPU) (instruction operand_a operand_b : Z) :
  getitem (ram s) (pc s) = Some instruction ->
  getitem (ram s) (pc s + 1) = Some operand_a ->
  getitem (ram s) (pc s + 2) = Some operand_b ->
  fetch s = Ok (instruction, operand_a, operand_b) s.
Proof. intros H0 H1 H2. unfold fetch. unfold_m. now rewrite H0, H1, H2. Qed.

(** A cycle whose fetch succeeds is the dispatch followed by the advance. *)
Lemma cycle_fetched (s s' : CPU) (instruction operand_a operand_b : Z) :
  fetch s = Ok (instruction, operand_a, operand_b) s' ->
  cycle s =
    (dispatch instruction operand_a operand_b ;; advance instruction) s.
Proof.
  intros H. destruct (fetch_inv _ _ _ _ _ H) as (-> & _).
  unfold cycle. now rewrite (bind_Ok _ _ _ _ _ H).
Qed.

(** An opcode the table does not know never lets [dispatch] return. *)
Lemma dispatch_unknown (s : CPU) (instruction operand_a operand_b : Z) :
  lookup branchtable instruction = None ->
  dispatch instruction operand_a operand_b s = Raise ValueError s \/
  exists line : string,
    dispatch instruction operand_a operand_b s =
      Raise (SystemExit 1) (with_stdout s (stdout s ++ [line])).
Proof.
  intros Hl. unfold dispatch. rewrite Hl. unfold bind, str, get_pc.
  destruct (digits instruction <=? int_max_str_digits)%nat; [|now left].
  destruct (digits (pc s) <=? int_max_str_digits)%nat; [|now left].
  right. eexists. reflexivity.
Qed.

(** The two bit fields of an opcode the engine looks at. *)
Lemma instruction_size_bits (instruction : Z) :
  instruction_size instruction = Z.land (Z.shiftr instruction 6) 0b"11" + 1.
Proof.
  unfold instruction_size. now rewrite Z.shiftr_land.
Qed.

Lemma bit4_test (instruction : Z) :
  (Z.land (Z.shiftr instruction 4) 0b"1" =? 1) = Z.testbit instruction 4.
Proof.
  change (bin_digits 0 "1") with (Z.ones 1).
  rewrite Z.land_ones by lia. change (2 ^ 1) with 2.
  rewrite <- Z.bit0_eqb, Z.shiftr_spec by lia. reflexivity.
Qed.

Lemma advance_run (instruction : Z) (s : CPU) :
  advance instruction s =
    Ok tt (if Z.testbit instruction 4 then s
           else with_pc s (pc s + instruction_size instruction)).
Proof.
  unfold advance. rewrite bit4_test.
  destruct (Z.testbit instruction 4); reflexivity.
Qed.

(** C1. In a cycle taken while running, with [instruction] the fetched
    opcode, the instruction size is [((instruction >> 6) & 0b11) + 1];
    and when the handler the table gives for it returns, leaving state
    [s1], the cycle ends in [s1] with the program counter advanced by that
    size if bit 4 of the opcode is 0, and in [s1] itself if bit 4 is 1.
    The loop goes on from there. *)
Theorem cycle_advances_unless_bit4
    (s s1 : CPU) (instruction operand_a operand_b : Z) (h : handler) (r : pyval) :
  halted s = false ->
  fetch s = Ok (instruction, operand_a, operand_b) s ->
  lookup branchtable instruction = Some h ->
  h operand_a operand_b s = Ok r s1 ->
  instruction_size instruction = Z.land (Z.shiftr instruction 6) 0b"11" + 1 /\
  exists s2 : CPU,
    cycle s = Ok tt s2 /\
    (forall fuel : nat, run (S fuel) s = run fuel s2) /\
    (Z.testbit instruction 4 = false ->
     s2 = with_pc s1 (pc s1 + instruction_size instruction)) /\
    (Z.testbit instruction 4 = true -> s2 = s1).
Proof.
  intros Hrun Hf Hl Hh. split; [apply instruction_size_bits|].
  assert (E : cycle s =
              Ok tt (if Z.testbit instruction 4 then s1
                     else with_pc s1 (pc s1 + instruction_size instruction))).
  { rewrite (cycle_fetched _ _ _ _ _ Hf). unfold dispatch. rewrite Hl.
    rewrite (bind_Ok _ _ _ _ _ Hh). apply advance_run. }
  eexists. split; [exact E|]. split.
  - intros fuel. cbn [run]. now rewrite Hrun, E.
  - split; intros ->; reflexivity.
Qed.

Lemma cycle_advances_unless_bit4_witness :
  let s := final (load [LDI; 0; 8; HLT] init) in
  let s1 := with_reg s [8; 0; 0; 0; 0; 0; 0; 244] in
  halted s = false /\
  fetch s = Ok (LDI, 0, 8) s /\
  lookup branchtable LDI = Some ldi /\
  ldi 0 8 s = Ok PyNone s1 /\
  instruction_size LDI = Z.land (Z.shiftr LDI 6) 0b"11" + 1 /\
  exists s2 : CPU,
    cycle s = Ok tt s2 /\
    (forall fuel : nat, run (S fuel) s = run fuel s2) /\
    (Z.testbit LDI 4 = false -> s2 = with_pc s1 (pc s1 + instruction_size LDI)) /\
    (Z.testbit LDI 4 = true -> s2 = s1).
Proof.
  intros s s1. do 4 (split; [reflexivity|]).
  apply (cycle_advances_unless_bit4 s s1 LDI 0 8 ldi PyNone); reflexivity.
Defined.

(** C5. When the stack pointer holds 0xF4, POP returns the string
    ['Empty Stack'] without raising and leaves the whole state as it was.
    A cycle that fetches POP in such a state returns too, and changes
    nothing but the program counter, which moves on by 2, the size of a
    POP instruction; a machine that was running is still running. *)
Theorem pop_on_empty_stack_changes_nothing (s : CPU) (operand_a operand_b : Z) :
  getitem (reg s) SP = Some 0xF4 ->
  pop operand_a operand_b s = Ok (PyStr "Empty Stack") s /\
  instruction_size POP = 2 /\
  (fetch s = Ok (POP, operand_a, operand_b) s ->
   cycle s = Ok tt (with_pc s (pc s + 2)) /\
   (halted s = false ->
    forall fuel : nat, run (S fuel) s = run fuel (with_pc s (pc s + 2)))).
Proof.
  intros HS.
  assert (E : pop operand_a operand_b s = Ok (PyStr "Empty Stack") s).
  { unfold pop. unfold_m. now rewrite HS. }
  split; [exact E|]. split; [reflexivity|]. intros Hf.
  assert (C : cycle s = Ok tt (with_pc s (pc s + 2))).
  { rewrite (cycle_fetched _ _ _ _ _ Hf). unfold dispatch.
    change (lookup branchtable POP) with (Some pop).
    rewrite (bind_Ok _ _ _ _ _ E). now rewrite advance_run. }
  split; [exact C|]. intros Hrun fuel. cbn [run]. now rewrite Hrun, C.
Qed.

Lemma pop_on_empty_stack_changes_nothing_witness :
  let s := final (load [POP; 0; HLT] init) in
  getitem (reg s) SP = Some 0xF4 /\
  fetch s = Ok (POP, 0, HLT) s /\
  halted s = false /\
  pop 0 HLT s = Ok (PyStr "Empty Stack") s /\
  cycle s = Ok tt (with_pc s 2) /\
  run 2 s = Some (Ok tt (with_halted (with_pc s 3) true)).
Proof.
  intros s.
  destruct (pop_on_empty_stack_changes_nothing s 0 HLT eq_refl)
    as (E & _ & C).
  destruct (C eq_refl) as (C1 & C2).
  do 3 (split; [reflexivity|]). split; [exact E|]. split; [exact C1|].
  rewrite (C2 eq_refl 1%nat). reflexivity.
Defined.

(** Every index of a 256-cell list has at most three digits. *)
Lemma digits_of_index (z : Z) : -256 <= z < 256 -> (digits z <= 3)%nat.
Proof.
  intros H.
  assert (All : forallb (fun n => (digits (Z.of_nat n - 256) <=? 3)%nat)
                        (seq 0 512) = true) by (vm_compute; reflexivity).
  rewrite forallb_forall in All.
  specialize (All (Z.to_nat (z + 256))).
  replace (Z.of_nat (Z.to_nat (z + 256)) - 256) with z in All by lia.
  apply Nat.leb_le, All, in_seq. lia.
Qed.

Lemma str_Ok (z : Z) (s : CPU) :
  (digits z <= int_max_str_digits)%nat ->
  str z s = Ok (NilZero.string_of_int (Z.to_int z)) s.
Proof.
  intros H. unfold str. apply Nat.leb_le in H. now rewrite H.
Qed.

(** C7, as the code has it.  Take a cycle of the 256-cell machine whose
    three reads have succeeded and whose opcode is not a key of the
    dispatch table, the opcode having no more decimal digits than the
    interpreter turns into text.  The cycle prints the one line
    ['unknown instruction: <opcode> at address <program counter>'], both
    numbers in decimal, and raises [SystemExit(1)]; memory, the
    registers, the flags, the halted flag and the program counter are as
    they were.  [run] ends there. *)
Theorem unknown_opcode_exits_with_1
    (s : CPU) (instruction operand_a operand_b : Z) :
  List.length (ram s) = 256%nat ->
  fetch s = Ok (instruction, operand_a, operand_b) s ->
  lookup branchtable instruction = None ->
  (digits instruction <= int_max_str_digits)%nat ->
  let line := ("unknown instruction: " ++
               NilZero.string_of_int (Z.to_int instruction) ++
               " at address " ++
               NilZero.string_of_int (Z.to_int (pc s)))%string in
  let s' := with_stdout s (stdout s ++ [line]) in
  cycle s = Raise (SystemExit 1) s' /\
  ram s' = ram s /\ reg s' = reg s /\ flags s' = flags s /\
  halted s' = halted s /\ pc s' = pc s /\
  (halted s = false ->
   forall fuel : nat, run (S fuel) s = Some (Raise (SystemExit 1) s')).
Proof.
  intros Hlen Hf Hl Hdig line s'.
  assert (Hpc : (digits (pc s) <= int_max_str_digits)%nat).
  { destruct (fetch_inv _ _ _ _ _ Hf) as (_ & H0 & _).
    destruct (getitem_slot _ _ _ H0) as (n & Hn & _).
    apply slot_range in Hn. rewrite Hlen in Hn.
    pose proof (digits_of_index (pc s) ltac:(lia)) as D.
    unfold int_max_str_digits. lia. }
  assert (C : cycle s = Raise (SystemExit 1) s').
  { rewrite (cycle_fetched _ _ _ _ _ Hf). unfold dispatch. rewrite Hl.
    unfold bind. rewrite (str_Ok _ s Hdig). unfold get_pc.
    rewrite (str_Ok _ s Hpc). reflexivity. }
  split; [exact C|]. repeat (split; [reflexivity|]).
  intros Hrun fuel. cbn [run]. now rewrite Hrun, C.
Qed.

Lemma unknown_opcode_exits_with_1_witness :
  let s := final (load [0b"11111111"] init) in
  List.length (ram s) = 256%nat /\
  fetch s = Ok (255, 0, 0) s /\
  lookup branchtable 255 = None /\
  (digits 255 <= int_max_str_digits)%nat /\
  cycle s =
    Raise (SystemExit 1)
          (with_stdout s ["unknown instruction: 255 at address 0"%string]) /\
  reg s = [0; 0; 0; 0; 0; 0; 0; 244] /\
  run 10 s =
    Some (Raise (SystemExit 1)
                (with_stdout s ["unknown instruction: 255 at address 0"%string])).
Proof.
  intros s.
  assert (D : (digits 255 <= int_max_str_digits)%nat)
    by (apply Nat.leb_le; reflexivity).
  destruct (unknown_opcode_exits_with_1 s 255 0 0 eq_refl eq_refl eq_refl D)
    as (C & _ & _ & _ & _ & _ & R).
  do 3 (split; [reflexivity|]). split; [exact D|].
  split; [exact C|]. split; [reflexivity|].
  exact (R eq_refl 9%nat).
Defined.

(** The report names the byte and the address of the cycle at hand: byte 7
    at address 5. *)
Lemma unknown_opcode_7_at_5 :
  cycle (with_pc (final (load [0; 0; 0; 0; 0; 7] init)) 5) =
    Raise (SystemExit 1)
          (with_stdout (with_pc (final (load [0; 0; 0; 0; 0; 7] init)) 5)
                       ["unknown instruction: 7 at address 5"%string]).
Proof. vm_compute. reflexivity. Qed.

(** An opcode with more digits than the limit: the report itself raises,
    before anything is printed. *)
Lemma unknown_opcode_too_long
    (s : CPU) (instruction operand_a operand_b : Z) :
  fetch s = Ok (instruction, operand_a, operand_b) s ->
  lookup branchtable instruction = None ->
  (int_max_str_digits < digits instruction)%nat ->
  cycle s = Raise ValueError s.
Proof.
  intros Hf Hl Hdig. rewrite (cycle_fetched _ _ _ _ _ Hf).
  unfold dispatch. rewrite Hl. unfold bind, str.
  apply Nat.leb_gt in Hdig. now rewrite Hdig.
Qed.

(** ** Subroutines *)

(** CALL, when the stack pointer holds [S], [S - 1] denotes memory cell
    [m], the operand byte sits in another cell and names register [k]. *)
Lemma call_run (s : CPU) (operand_a operand_b r S : Z) (m o k : nat) :
  getitem (reg s) SP = Some S ->
  slot (List.length (ram s)) (S - 1) = Some m ->
  slot (List.length (ram s)) (pc s + 1) = Some o ->
  m <> o ->
  getitem (ram s) (pc s + 1) = Some r ->
  slot (List.length (reg s)) r = Some k ->
  exists target : Z,
    nth_error (update (reg s) 7 (S - 1)) k = Some target /\
    call operand_a operand_b s =
      Ok PyNone
         (with_pc (with_ram (with_reg s (update (reg s) 7 (S - 1)))
                            (update (ram s) m (pc s + 2)))
                  target).
Proof.
  intros HS Hm Ho Hmo Hr Hk. destruct (slot_SP _ _ HS) as (H7 & _).
  assert (Hk' : slot (List.length (update (reg s) 7 (S - 1))) r = Some k)
    by now rewrite update_length.
  destruct (slot_getitem _ _ _ Hk') as (target & Ht).
  exists target. split.
  - unfold getitem in Ht. now rewrite Hk' in Ht.
  - unfold call. unfold_m. rewrite HS. unfold_m.
    rewrite (setitem_slot _ _ _ _ H7). unfold_m.
    rewrite (getitem_update_same _ _ _ _ H7). unfold_m.
    rewrite (getitem_update_same _ _ _ _ H7). unfold_m.
    rewrite (setitem_slot _ _ _ _ Hm). unfold_m.
    rewrite (getitem_update_same _ _ _ _ Hm). unfold_m.
    rewrite (getitem_update_other _ _ _ _ _ Ho Hmo), Hr. unfold_m.
    now rewrite Ht.
Qed.

(** RET, when the stack pointer holds [S'] and the cell it denotes holds
    [a]. *)
Lemma ret_run (s : CPU) (operand_a operand_b S' a : Z) :
  getitem (reg s) SP = Some S' ->
  getitem (ram s) S' = Some a ->
  ret operand_a operand_b s =
    Ok PyNone (with_pc (with_reg s (update (reg s) 7 (S' + 1))) a).
Proof.
  intros HS Ha. destruct (slot_SP _ _ HS) as (H7 & _).
  unfold ret. unfold_m. rewrite HS. unfold_m. rewrite Ha. unfold_m.
  rewrite HS. unfold_m. rewrite (setitem_slot _ _ _ _ H7). unfold_m.
  now rewrite Ha.
Qed.

(** C3, as the code has it.  Take a cycle that fetches CALL at address
    [A] with operand [r], the stack pointer holding [S], where [S - 1]
    denotes a memory cell other than the one holding the operand byte and
    [r] denotes a register.  The cycle returns with the stack pointer at
    [S - 1], [A + 2] stored in the cell [S - 1] denotes, and the program
    counter at the value [r]'s register holds once the stack pointer has
    been decremented (its original value unless [r] names register 7).
    In any state where the stack pointer holds [S - 1] and that cell
    still holds [A + 2], a cycle that fetches RET returns with the program
    counter at [A + 2] and the stack pointer at [S]. *)
Theorem call_then_ret (s : CPU) (A r x S : Z) (m o k : nat) :
  pc s = A ->
  fetch s = Ok (CALL, r, x) s ->
  getitem (reg s) SP = Some S ->
  slot (List.length (ram s)) (S - 1) = Some m ->
  slot (List.length (ram s)) (A + 1) = Some o ->
  m <> o ->
  slot (List.length (reg s)) r = Some k ->
  exists (target : Z) (s1 : CPU),
    cycle s = Ok tt s1 /\
    getitem (reg s1) SP = Some (S - 1) /\
    getitem (ram s1) (S - 1) = Some (A + 2) /\
    pc s1 = target /\
    (k <> 7%nat -> getitem (reg s) r = Some target) /\
    (k = 7%nat -> target = S - 1) /\
    forall (s2 : CPU) (y z : Z),
      getitem (reg s2) SP = Some (S - 1) ->
      getitem (ram s2) (S - 1) = Some (A + 2) ->
      fetch s2 = Ok (RET, y, z) s2 ->
      exists s3 : CPU,
        cycle s2 = Ok tt s3 /\ pc s3 = A + 2 /\
        getitem (reg s3) SP = Some S.
Proof.
  intros <- Hf HS Hm Ho Hmo Hk.
  destruct (fetch_inv _ _ _ _ _ Hf) as (_ & _ & Hr & _).
  destruct (call_run s r x r S m o k HS Hm Ho Hmo Hr Hk) as (target & Ht & E).
  destruct (slot_SP _ _ HS) as (H7 & _).
  eexists target, _. split.
  { rewrite (cycle_fetched _ _ _ _ _ Hf). unfold dispatch.
    change (lookup branchtable CALL) with (Some call).
    rewrite (bind_Ok _ _ _ _ _ E). rewrite advance_run. reflexivity. }
  change (Z.testbit CALL 4) with true. cbv iota.
  cbn [ram reg pc with_ram with_reg with_pc].
  split; [now apply getitem_update_same|].
  split; [now apply getitem_update_same|].
  split; [reflexivity|]. split; [|split].
  - intros Hne. rewrite nth_error_update_other in Ht by congruence.
    unfold getitem. now rewrite Hk.
  - intros ->. rewrite nth_error_update_same in Ht by (eapply slot_lt; eauto).
    congruence.
  - intros s2 y z HS2 Hcell Hf2.
    pose proof (ret_run s2 y z _ _ HS2 Hcell) as R.
    destruct (slot_SP _ _ HS2) as (H72 & _).
    eexists. split.
    { rewrite (cycle_fetched _ _ _ _ _ Hf2). unfold dispatch.
      change (lookup branchtable RET) with (Some ret).
      rewrite (bind_Ok _ _ _ _ _ R). rewrite advance_run. reflexivity. }
    change (Z.testbit RET 4) with true. cbv iota.
    cbn [reg pc with_reg with_pc]. split; [reflexivity|].
    replace (S - 1 + 1) with S by lia. now apply getitem_update_same.
Qed.

Lemma call_then_ret_witness :
  pc call_example = 3 /\
  fetch call_example = Ok (CALL, 0, HLT) call_example /\
  getitem (reg call_example) SP = Some 244 /\
  slot (List.length (ram call_example)) (244 - 1) = Some 243%nat /\
  slot (List.length (ram call_example)) (3 + 1) = Some 4%nat /\
  243%nat <> 4%nat /\
  slot (List.length (reg call_example)) 0 = Some 0%nat /\
  exists (target : Z) (s1 : CPU),
    cycle call_example = Ok tt s1 /\
    getitem (reg s1) SP = Some (244 - 1) /\
    getitem (ram s1) (244 - 1) = Some (3 + 2) /\
    pc s1 = target /\
    (0%nat <> 7%nat -> getitem (reg call_example) 0 = Some target) /\
    (0%nat = 7%nat -> target = 244 - 1) /\
    forall (s2 : CPU) (y z : Z),
      getitem (reg s2) SP = Some (244 - 1) ->
      getitem (ram s2) (244 - 1) = Some (3 + 2) ->
      fetch s2 = Ok (RET, y, z) s2 ->
      exists s3 : CPU,
        cycle s2 = Ok tt s3 /\ pc s3 = 3 + 2 /\
        getitem (reg s3) SP = Some 244.
Proof.
  do 5 (split; [reflexivity|]). split; [discriminate|]. split; [reflexivity|].
  apply (call_then_ret call_example 3 0 HLT 244 243 4 0);
    try reflexivity; discriminate.
Defined.

(** The whole example runs to the HLT that follows the CALL. *)
Lemma call_example_runs :
  run 3 call_example =
    Some (Ok tt (mkCPU (update (ram call_example) 243 5)
                       [6; 0; 0; 0; 0; 0; 0; 244] true 6 [0; 0; 0] [])).
Proof. vm_compute. reflexivity. Qed.

(** CALL at address 0 with operand 0 while the stack pointer holds 2: the
    return address 2 is written to cell 1, over the operand byte, and the
    handler then takes its register number from that cell.  The program
    counter ends at register 2's value, 20, not register 0's, 10. *)

Lemma call_overwrites_its_operand :
  fetch call_on_own_operand = Ok (CALL, 0, 0) call_on_own_operand /\
  getitem (reg call_on_own_operand) 0 = Some 10 /\
  getitem (reg call_on_own_operand) SP = Some 2 /\
  exists s1 : CPU,
    cycle call_on_own_operand = Ok tt s1 /\
    getitem (ram s1) 1 = Some 2 /\
    pc s1 = 20 /\
    Some (pc s1) <> getitem (reg call_on_own_operand) 0.
Proof.
  do 3 (split; [reflexivity|]). eexists.
  split; [vm_compute; reflexivity|].
  do 2 (split; [reflexivity|]). vm_compute. discriminate.
Qed.

(** With the stack pointer outside memory the push raises. *)
Lemma call_with_sp_out_of_memory :
  let s := with_reg call_example [6; 0; 0; 0; 0; 0; 0; 300] in
  cycle s = Raise IndexError (with_reg s [6; 0; 0; 0; 0; 0; 0; 299]).
Proof. vm_compute. reflexivity. Qed.

(** ** The fetch *)

Lemma load_from_keeps_size (prog : list Z) (address : Z) (s s' : CPU) :
  load_from address prog s = Ok tt s' ->
  List.length (ram s') = List.length (ram s).
Proof.
  revert address s. induction prog as [|v rest IH]; intros address s H.
  - cbn in H. unfold pure in H. now injection H as <-.
  - cbn [load_from] in H. unfold bind, set_ram in H.
    destruct (setitem (ram s) address v) as [m|] eqn:E; [|discriminate].
    apply IH in H. cbn [ram with_ram] in H. rewrite H.
    eapply setitem_length; eauto.
Qed.

Lemma cycle_keeps_size (s s' : CPU) :
  cycle s = Ok tt s' -> List.length (ram s') = List.length (ram s).
Proof.
  intros H. unfold cycle, bind in H.
  destruct (fetch s) as [[[i a] b] s0|] eqn:Hf; [|discriminate].
  destruct (fetch_inv _ _ _ _ _ Hf) as (-> & _).
  destruct (lookup branchtable i) as [h|] eqn:Hl;
    [|destruct (dispatch_unknown s i a b Hl) as [E | (line & E)];
      rewrite E in H; discriminate].
  unfold dispatch in H. rewrite Hl in H.
  destruct (handlers_keep_sizes i h a b s Hl) as (Hram & _).
  destruct (h a b s) as [r s1|] eqn:Hh; [|discriminate].
  rewrite advance_run in H. cbn [final] in Hram.
  destruct (Z.testbit i 4); injection H as <-; cbn [ram with_pc]; exact Hram.
Qed.

Lemma reachable_ram_size (s : CPU) :
  reachable s -> List.length (ram s) = 256%nat.
Proof.
  induction 1 as [prog s H | s s' _ IH _ H].
  - apply load_from_keeps_size in H. rewrite H. reflexivity.
  - apply cycle_keeps_size in H. congruence.
Qed.

Lemma getitem_in_range {A : Type} (l : list A) (i : Z) :
  (exists v, getitem l i = Some v) <->
  - Z.of_nat (List.length l) <= i < Z.of_nat (List.length l).
Proof.
  split.
  - intros (v & H). destruct (getitem_slot _ _ _ H) as (n & Hn & _).
    eapply slot_range; eauto.
  - intros H. destruct (slot_in_range _ _ H) as (n & Hn).
    eapply slot_getitem; eauto.
Qed.

(** C6, as the code has it.  In every state the engine can reach, memory
    has its 256 cells, and the three reads that open a cycle succeed
    exactly when the program counter [p] satisfies [-256 <= p] and
    [p + 2 <= 255], so that [p], [p + 1] and [p + 2] are all indices of
    memory; otherwise the fetch raises [IndexError]. *)
Theorem fetch_succeeds_iff_pc_in_range (s : CPU) :
  reachable s ->
  List.length (ram s) = 256%nat /\
  ((exists instruction operand_a operand_b : Z,
      fetch s = Ok (instruction, operand_a, operand_b) s) <->
   -256 <= pc s /\ pc s + 2 <= 255) /\
  (~ (-256 <= pc s /\ pc s + 2 <= 255) -> fetch s = Raise IndexError s).
Proof.
  intros Hr. pose proof (reachable_ram_size s Hr) as Hlen.
  split; [exact Hlen|].
  assert (R : forall i, (exists v, getitem (ram s) i = Some v) <-> -256 <= i < 256).
  { intros i. rewrite getitem_in_range, Hlen. reflexivity. }
  assert (Iff : (exists instruction operand_a operand_b : Z,
                    fetch s = Ok (instruction, operand_a, operand_b) s) <->
                -256 <= pc s /\ pc s + 2 <= 255).
  { split.
    - intros (i & a & b & H). apply fetch_inv in H as (_ & H0 & _ & H2).
      assert (-256 <= pc s < 256) by (apply R; eauto).
      assert (-256 <= pc s + 2 < 256) by (apply R; eauto). lia.
    - intros H.
      destruct (proj2 (R (pc s))) as (i & Hi); [lia|].
      destruct (proj2 (R (pc s + 1))) as (a & Ha); [lia|].
      destruct (proj2 (R (pc s + 2))) as (b & Hb); [lia|].
      exists i, a, b. now apply fetch_Ok. }
  split; [exact Iff|].
  intros Hout. unfold fetch. unfold_m.
  destruct (getitem (ram s) (pc s)) as [i|] eqn:E0; [|reflexivity].
  destruct (getitem (ram s) (pc s + 1)) as [a|] eqn:E1; [|reflexivity].
  destruct (getitem (ram s) (pc s + 2)) as [b|] eqn:E2; [|reflexivity].
  exfalso. apply Hout, Iff. exists i, a, b. now apply fetch_Ok.
Qed.

Lemma jump_to_254_reachable : reachable jump_to_254.
Proof.
  unfold jump_to_254.
  eapply reach_cycle with (s := final (cycle (final (load [LDI; 0; 254; JMP; 0] init)))).
  - eapply reach_cycle with (s := final (load [LDI; 0; 254; JMP; 0] init)).
    + apply (reach_load [LDI; 0; 254; JMP; 0]). vm_compute. reflexivity.
    + reflexivity.
    + vm_compute. reflexivity.
  - reflexivity.
  - vm_compute. reflexivity.
Qed.

Lemma fetch_succeeds_iff_pc_in_range_witness :
  reachable jump_to_254 /\
  List.length (ram jump_to_254) = 256%nat /\
  pc jump_to_254 = 254 /\
  fetch jump_to_254 = Raise IndexError jump_to_254.
Proof.
  split; [exact jump_to_254_reachable|].
  destruct (fetch_succeeds_iff_pc_in_range jump_to_254 jump_to_254_reachable)
    as (Hlen & _ & Hout).
  split; [exact Hlen|]. split; [reflexivity|].
  apply Hout. change (pc jump_to_254) with 254. lia.
Defined.

(** After [LDI R0,254; JMP R0] the machine is running with the program
    counter at 254, and the read of address 256 raises. *)
Lemma fetch_fails_at_254 :
  reachable jump_to_254 /\
  halted jump_to_254 = false /\
  pc jump_to_254 = 254 /\
  getitem (ram jump_to_254) (254 + 2) = None /\
  fetch jump_to_254 = Raise IndexError jump_to_254 /\
  run 3 (final (load [LDI; 0; 254; JMP; 0] init)) =
    Some (Raise IndexError jump_to_254).
Proof.
  split; [exact jump_to_254_reachable|].
  repeat split; vm_compute; reflexivity.
Qed.

(** After [LDI R0,254; JMP R0] the opcode at the program counter is 0,
    which the table does not know; but the read of address 256 comes
    first, and the cycle raises [IndexError] with nothing printed. *)
Lemma unknown_opcode_at_254_is_not_reported :
  reachable jump_to_254 /\
  halted jump_to_254 = false /\
  pc jump_to_254 = 254 /\
  getitem (ram jump_to_254) (pc jump_to_254) = Some 0 /\
  lookup branchtable 0 = None /\
  cycle jump_to_254 = Raise IndexError jump_to_254 /\
  stdout jump_to_254 = [] /\
  run 1 jump_to_254 = Some (Raise IndexError jump_to_254).
Proof.
  split; [exact jump_to_254_reachable|].
  repeat split; vm_compute; reflexivity.
Qed.

(** * Further properties *)

(** ** Loading a program *)

Lemma slot_index (len n : nat) :
  (n < len)%nat -> slot len (Z.of_nat n) = Some n.
Proof.
  intros H. unfold slot.
  replace ((0 <=? Z.of_nat n) && (Z.of_nat n <? Z.of_nat len)) with true.
  - now rewrite Nat2Z.id.
  - symmetry. apply andb_true_iff. split; [apply Z.leb_le | apply Z.ltb_lt]; lia.
Qed.

Lemma slot_past (len n : nat) :
  (len <= n)%nat -> slot len (Z.of_nat n) = None.
Proof.
  intros H. unfold slot.
  replace ((0 <=? Z.of_nat n) && (Z.of_nat n <? Z.of_nat len)) with false
    by (symmetry; apply andb_false_iff; right; apply Z.ltb_ge; lia).
  replace ((- Z.of_nat len <=? Z.of_nat n) && (Z.of_nat n <? 0)) with false
    by (symmetry; apply andb_false_iff; right; apply Z.ltb_ge; lia).
  reflexivity.
Qed.

Lemma firstn_S_update {A : Type} (l : list A) (n : nat) (v : A) :
  (n < List.length l)%nat -> firstn (S n) (update l n v) = firstn n l ++ [v].
Proof.
  revert n. induction l as [|h t IH]; intros [|n] H; simpl in *; try lia; auto.
  f_equal. apply IH. lia.
Qed.

Lemma skipn_update {A : Type} (l : list A) (n m : nat) (v : A) :
  (n < m)%nat -> skipn m (update l n v) = skipn m l.
Proof.
  revert n m. induction l as [|h t IH]; intros [|n] [|m] H; simpl; try lia; auto.
  apply IH. lia.
Qed.

Lemma with_ram_same (s : CPU) : with_ram s (ram s) = s.
Proof. now destruct s. Qed.

(** [load_from] started at address [n] of a memory of at least [n] cells. *)
Lemma load_from_run (prog : list Z) :
  forall (n : nat) (s : CPU),
    (n <= List.length (ram s))%nat ->
    load_from (Z.of_nat n) prog s =
      if (List.length prog <=? List.length (ram s) - n)%nat
      then Ok tt (with_ram s (firstn n (ram s) ++ prog ++
                              skipn (n + List.length prog) (ram s)))
      else Raise IndexError
                 (with_ram s (firstn n (ram s) ++
                              firstn (List.length (ram s) - n) prog)).
Proof.
  induction prog as [|v rest IH]; intros n s Hn.
  - cbn [load_from List.length Nat.leb app]. rewrite Nat.add_0_r.
    rewrite firstn_skipn. now rewrite with_ram_same.
  - cbn [load_from]. unfold bind, set_ram, setitem.
    destruct (Nat.eq_dec n (List.length (ram s))) as [-> | Hne].
    + rewrite slot_past by lia. rewrite Nat.sub_diag.
      cbn [List.length Nat.leb firstn]. rewrite firstn_all, app_nil_r.
      now rewrite with_ram_same.
    + assert (Hlt : (n < List.length (ram s))%nat) by lia.
      rewrite slot_index by exact Hlt.
      replace (Z.of_nat n + 1) with (Z.of_nat (S n)) by lia.
      rewrite IH by (cbn [ram with_ram]; rewrite update_length; lia).
      cbn [ram with_ram reg halted pc flags stdout]. rewrite update_length.
      replace (List.length (v :: rest) <=? List.length (ram s) - n)%nat
        with (List.length rest <=? List.length (ram s) - S n)%nat
        by (cbn [List.length];
            destruct (Nat.leb_spec (List.length rest) (List.length (ram s) - S n));
            symmetry; [apply Nat.leb_le | apply Nat.leb_gt]; lia).
      rewrite firstn_S_update by exact Hlt.
      rewrite skipn_update by lia.
      replace (List.length (ram s) - n)%nat
        with (S (List.length (ram s) - S n)) by lia.
      cbn [firstn List.length]. rewrite <- !app_assoc. cbn [app].
      replace (S n + List.length rest)%nat with (n + S (List.length rest))%nat
        by lia.
      destruct (List.length rest <=? List.length (ram s) - S n)%nat;
        reflexivity.
Qed.

Lemma skipn_repeat {A : Type} (x : A) (n m : nat) :
  skipn n (repeat x m) = repeat x (m - n).
Proof.
  revert m. induction n as [|n IH]; intros [|m]; simpl; auto.
Qed.

(** X1. Loading a program of at most 256 integers into a fresh machine
    returns with the program at addresses 0, 1, ... in file order, zeros
    after it, and everything else as [__init__] left it.  Loading a longer
    one raises [IndexError] at the 257th integer, memory then holding the
    first 256. *)
Theorem load_into_fresh_machine (prog : list Z) :
  load prog init =
    if (List.length prog <=? 256)%nat
    then Ok tt (with_ram init (prog ++ repeat 0 (256 - List.length prog)))
    else Raise IndexError (with_ram init (firstn 256 prog)).
Proof.
  unfold load. change 0 with (Z.of_nat 0).
  rewrite load_from_run by (cbn; lia).
  change (List.length (ram init)) with 256%nat.
  cbn [firstn app Nat.add]. rewrite Nat.sub_0_r.
  change (ram init) with (repeat 0 256). now rewrite skipn_repeat.
Qed.

Lemma load_into_fresh_machine_long :
  load (repeat 7 300) init = Raise IndexError (with_ram init (repeat 7 256)).
Proof. vm_compute. reflexivity. Qed.

(** ** The shape of reachable states *)

Lemma cycle_inv (s s' : CPU) :
  cycle s = Ok tt s' ->
  exists (i a b : Z) (h : handler) (r : pyval) (s1 : CPU),
    fetch s = Ok (i, a, b) s /\
    lookup branchtable i = Some h /\
    h a b s = Ok r s1 /\
    s' = if Z.testbit i 4 then s1
         else with_pc s1 (pc s1 + instruction_size i).
Proof.
  intros H. unfold cycle, bind in H.
  destruct (fetch s) as [[[i a] b] s0|] eqn:Hf; [|discriminate].
  destruct (fetch_inv _ _ _ _ _ Hf) as (-> & _).
  destruct (lookup branchtable i) as [h|] eqn:Hl;
    [|destruct (dispatch_unknown s i a b Hl) as [E | (line & E)];
      rewrite E in H; discriminate].
  unfold dispatch in H. rewrite Hl in H.
  destruct (h a b s) as [r s1|] eqn:Hh; [|discriminate].
  rewrite advance_run in H. injection H as <-.
  exists i, a, b, h, r, s1. auto.
Qed.

Lemma handlers_keep_flags_size
    (opcode : Z) (h : handler) (operand_a operand_b : Z) (s : CPU) :
  lookup branchtable opcode = Some h ->
  List.length (flags s) = 3%nat ->
  List.length (flags (final (h operand_a operand_b s))) = 3%nat.
Proof.
  intros H Hlen. apply lookup_branchtable in H.
  repeat destruct H as [H | H]; destruct H as [-> ->];
    unfold_handlers; by_cases; cbn [final]; unfold_m;
    solve [exact Hlen | reflexivity].
Qed.

Lemma load_keeps_reg_flags (prog : list Z) (s : CPU) :
  load prog init = Ok tt s -> reg s = reg init /\ flags s = flags init.
Proof.
  unfold load. change 0 with (Z.of_nat 0).
  rewrite load_from_run by (cbn; lia).
  destruct (List.length prog <=? List.length (ram init) - 0)%nat;
    [|discriminate].
  intros [= <-]. split; reflexivity.
Qed.

(** X2. In every state the engine can reach, memory has 256 cells, the
    register file 8 and the flags 3; so reading the stack pointer and
    reading the Equal flag never raise there. *)
Theorem reachable_shape (s : CPU) :
  reachable s ->
  List.length (ram s) = 256%nat /\
  List.length (reg s) = 8%nat /\
  List.length (flags s) = 3%nat /\
  (exists sp : Z, get_reg SP s = Ok sp s) /\
  (exists e : Z, get_flag 2 s = Ok e s).
Proof.
  intros Hr.
  assert (Hshape : List.length (ram s) = 256%nat /\
                   List.length (reg s) = 8%nat /\
                   List.length (flags s) = 3%nat).
  { induction Hr as [prog s H | s s' _ IH _ H].
    - split; [apply load_from_keeps_size in H; rewrite H; reflexivity|].
      apply load_keeps_reg_flags in H as (-> & ->). split; reflexivity.
    - destruct IH as (Hram & Hreg & Hfl).
      destruct (cycle_inv _ _ H) as (i & a & b & h & r & s1 & _ & Hl & Hh & ->).
      destruct (handlers_keep_sizes i h a b s Hl) as (Kram & Kreg).
      pose proof (handlers_keep_flags_size i h a b s Hl Hfl) as Kfl.
      rewrite Hh in Kram, Kreg, Kfl. cbn [final] in Kram, Kreg, Kfl.
      destruct (Z.testbit i 4); cbn [ram reg flags with_pc];
        repeat split; congruence. }
  destruct Hshape as (Hram & Hreg & Hfl). repeat split; auto.
  - destruct (slot_getitem (reg s) SP 7) as (sp & Hsp);
      [rewrite Hreg; reflexivity|].
    exists sp. unfold get_reg. now rewrite Hsp.
  - destruct (slot_getitem (flags s) 2 2) as (e & He);
      [rewrite Hfl; reflexivity|].
    exists e. unfold get_flag. now rewrite He.
Qed.

Lemma reachable_shape_witness :
  let s := final (load [LDI; 0; 8; HLT] init) in
  reachable s /\
  List.length (ram s) = 256%nat /\
  List.length (reg s) = 8%nat /\
  List.length (flags s) = 3%nat /\
  (exists sp : Z, get_reg SP s = Ok sp s) /\
  (exists e : Z, get_flag 2 s = Ok e s).
Proof.
  intros s.
  assert (Hr : reachable s) by (apply (reach_load [LDI; 0; 8; HLT]); reflexivity).
  split; [exact Hr|]. exact (reachable_shape s Hr).
Defined.

(** ** More of the ALU *)

(** X3. An operation name other than the four the ALU knows makes it raise
    [Exception("Unsupported ALU operation")], whatever the operands, with
    the state untouched. *)
Theorem alu_unsupported_operation (op : string) (reg_a reg_b : Z) (s : CPU) :
  op <> "ADD"%string -> op <> "SUB"%string ->
  op <> "MUL"%string -> op <> "CMP"%string ->
  alu op reg_a reg_b s = Raise (Exception "Unsupported ALU operation") s.
Proof.
  intros H1 H2 H3 H4. unfold alu.
  apply String.eqb_neq in H1, H2, H3, H4. now rewrite H1, H2, H3, H4.
Qed.

Lemma alu_unsupported_operation_witness :
  "DIV"%string <> "ADD"%string /\ "DIV"%string <> "SUB"%string /\
  "DIV"%string <> "MUL"%string /\ "DIV"%string <> "CMP"%string /\
  alu "DIV" 0 1 init = Raise (Exception "Unsupported ALU operation") init.
Proof.
  do 4 (split; [discriminate|]).
  apply (alu_unsupported_operation "DIV" 0 1 init); discriminate.
Defined.

Lemma alu_sub (s : CPU) (reg_a reg_b va vb : Z) :
  getitem (reg s) reg_a = Some va ->
  getitem (reg s) reg_b = Some vb ->
  exists r, setitem (reg s) reg_a (va - vb) = Some r /\
            alu "SUB" reg_a reg_b s = Ok PyNone (with_reg s r) /\
            getitem r reg_a = Some (va - vb).
Proof.
  intros Ha Hb. destruct (getitem_slot _ _ _ Ha) as (n & Hn & _).
  exists (update (reg s) n (va - vb)). split; [now apply setitem_slot|].
  split; [|now apply getitem_update_same].
  unfold alu. cbn [String.eqb Ascii.eqb Bool.eqb]. exec.
  now rewrite (setitem_slot _ _ _ _ Hn).
Qed.

Lemma with_reg_same (s : CPU) : with_reg s (reg s) = s.
Proof. now destruct s. Qed.

(** X4. SUB stores the exact difference [va - vb] in [reg_a].  When
    [reg_a] and [reg_b] denote different registers, SUB followed by ADD
    of the same operands puts the machine back in the state it started
    from; when they denote the same register, that register ends at 0. *)
Theorem sub_then_add (s : CPU) (reg_a reg_b va vb : Z) (ka kb : nat) :
  getitem (reg s) reg_a = Some va ->
  getitem (reg s) reg_b = Some vb ->
  slot (List.length (reg s)) reg_a = Some ka ->
  slot (List.length (reg s)) reg_b = Some kb ->
  exists s1 s2 : CPU,
    alu "SUB" reg_a reg_b s = Ok PyNone s1 /\
    getitem (reg s1) reg_a = Some (va - vb) /\
    (alu "SUB" reg_a reg_b ;; alu "ADD" reg_a reg_b) s = Ok PyNone s2 /\
    (ka <> kb -> s2 = s) /\
    (ka = kb -> getitem (reg s2) reg_a = Some 0).
Proof.
  intros Ha Hb Hka Hkb.
  destruct (alu_sub s _ _ _ _ Ha Hb) as (r1 & S1 & E1 & G1).
  rewrite (setitem_slot _ _ _ _ Hka) in S1. injection S1 as <-.
  assert (Hka' : slot (List.length (update (reg s) ka (va - vb))) reg_a = Some ka)
    by now rewrite update_length.
  assert (Hkb' : slot (List.length (update (reg s) ka (va - vb))) reg_b = Some kb)
    by now rewrite update_length.
  destruct (slot_getitem _ _ _ Hkb') as (y & Hy).
  destruct (alu_add (with_reg s (update (reg s) ka (va - vb))) reg_a reg_b
                    (va - vb) y G1 Hy) as (r2 & S2 & E2 & G2).
  cbn [reg with_reg] in S2. rewrite (setitem_slot _ _ _ _ Hka') in S2.
  injection S2 as <-. rewrite update_update in E2, G2.
  eexists _, _. split; [exact E1|]. split; [exact G1|].
  split; [rewrite (bind_Ok _ _ _ _ _ E1); exact E2|].
  assert (Hva : nth_error (reg s) ka = Some va).
  { unfold getitem in Ha. now rewrite Hka in Ha. }
  unfold getitem in Hy. rewrite Hkb' in Hy.
  cbn [reg with_reg]. split.
  - intros Hne. rewrite nth_error_update_other in Hy by exact Hne.
    unfold getitem in Hb. rewrite Hkb in Hb.
    assert (y = vb) as -> by congruence.
    replace (va - vb + vb) with va by lia.
    rewrite (update_id _ _ _ Hva).
    destruct s; reflexivity.
  - intros <-. rewrite nth_error_update_same in Hy by (eapply slot_lt; eauto).
    injection Hy as <-.
    unfold getitem in Hb. rewrite Hkb in Hb.
    assert (va = vb) as -> by congruence.
    rewrite G2. f_equal. lia.
Qed.

Lemma sub_then_add_witness :
  let s := with_reg init [7; 300; 0; 0; 0; 0; 0; 244] in
  getitem (reg s) 0 = Some 7 /\
  getitem (reg s) 1 = Some 300 /\
  slot (List.length (reg s)) 0 = Some 0%nat /\
  slot (List.length (reg s)) 1 = Some 1%nat /\
  exists s1 s2 : CPU,
    alu "SUB" 0 1 s = Ok PyNone s1 /\
    getitem (reg s1) 0 = Some (7 - 300) /\
    (alu "SUB" 0 1 ;; alu "ADD" 0 1) s = Ok PyNone s2 /\
    (0%nat <> 1%nat -> s2 = s) /\
    (0%nat = 1%nat -> getitem (reg s2) 0 = Some 0).
Proof.
  intros s. do 4 (split; [reflexivity|]).
  apply (sub_then_add s 0 1 7 300 0 1); reflexivity.
Defined.

(** ** Instructions in sequence *)

(** X5. LDI of [value] into a register followed by PRN of that register
    leaves the register holding [value].  When [value] has no more
    decimal digits than the interpreter turns into text, the pair returns
    with one more line printed, the decimal text of [value]; when it has
    more, PRN raises [ValueError] and nothing is printed. *)
Theorem ldi_then_prn (s : CPU) (operand_a value operand_b : Z) (k : nat) :
  slot (List.length (reg s)) operand_a = Some k ->
  (ldi operand_a value ;; prn operand_a operand_b) s =
    if (digits value <=? int_max_str_digits)%nat
    then Ok PyNone
            (with_stdout (with_reg s (update (reg s) k value))
                         (stdout s ++ [NilZero.string_of_int (Z.to_int value)]))
    else Raise ValueError (with_reg s (update (reg s) k value)).
Proof.
  intros Hk. unfold ldi, prn. unfold_m.
  rewrite (setitem_slot _ _ _ _ Hk). unfold_m.
  rewrite (getitem_update_same _ _ _ _ Hk). unfold_m.
  now destruct (digits value <=? int_max_str_digits)%nat.
Qed.

Lemma ldi_then_prn_witness :
  slot (List.length (reg init)) 0 = Some 0%nat /\
  (ldi 0 72 ;; prn 0 0) init =
    Ok PyNone (with_stdout (with_reg init [72; 0; 0; 0; 0; 0; 0; 244])
                           ["72"%string]).
Proof.
  split; [reflexivity|]. exact (ldi_then_prn init 0 72 0 0 eq_refl).
Defined.

(** The CMP handler, with the flags it leaves. *)
Lemma cmp_run (s : CPU) (operand_a operand_b va vb : Z) :
  getitem (reg s) operand_a = Some va ->
  getitem (reg s) operand_b = Some vb ->
  cmp operand_a operand_b s =
    Ok PyNone (with_flags s (if va =? vb then [0; 0; 1]
                             else if va <? vb then [1; 0; 0] else [0; 1; 0])).
Proof.
  intros Ha Hb. unfold cmp, alu. cbn [String.eqb Ascii.eqb Bool.eqb].
  destruct (Z.compare_spec va vb) as [E | L | G].
  - subst vb. exec. rewrite Z.eqb_refl. exec. rewrite Z.ltb_irrefl. exec.
    now rewrite Z.gtb_ltb, Z.ltb_irrefl.
  - exec. replace (va =? vb) with false by (symmetry; apply Z.eqb_neq; lia).
    exec. replace (va <? vb) with true by (symmetry; apply Z.ltb_lt; lia).
    exec. now replace (va >? vb) with false
      by (rewrite Z.gtb_ltb; symmetry; apply Z.ltb_ge; lia).
  - exec. replace (va =? vb) with false by (symmetry; apply Z.eqb_neq; lia).
    exec. replace (va <? vb) with false by (symmetry; apply Z.ltb_ge; lia).
    exec. now replace (va >? vb) with true
      by (rewrite Z.gtb_ltb; symmetry; apply Z.ltb_lt; lia).
Qed.

(** X6. After CMP of two registers holding [va] and [vb], JEQ sets the
    program counter to its register's value exactly when [va = vb] and
    otherwise adds 2 to it; JNE does the opposite.  Apart from the flags
    CMP set and the program counter, nothing changes. *)
Theorem cmp_then_jeq_jne
    (s : CPU) (operand_a operand_b jump_reg operand_b' va vb target : Z) :
  getitem (reg s) operand_a = Some va ->
  getitem (reg s) operand_b = Some vb ->
  getitem (reg s) jump_reg = Some target ->
  exists f : list Z,
    cmp operand_a operand_b s = Ok PyNone (with_flags s f) /\
    (cmp operand_a operand_b ;; jeq jump_reg operand_b') s =
      Ok PyNone (with_pc (with_flags s f)
                         (if va =? vb then target else pc s + 2)) /\
    (cmp operand_a operand_b ;; jne jump_reg operand_b') s =
      Ok PyNone (with_pc (with_flags s f)
                         (if va =? vb then pc s + 2 else target)).
Proof.
  intros Ha Hb Hc. pose proof (cmp_run s _ _ _ _ Ha Hb) as E.
  eexists. split; [exact E|].
  rewrite !(bind_Ok _ _ _ _ _ E). unfold jeq, jne.
  destruct (va =? vb); [|destruct (va <? vb)]; unfold_m;
    [ change (getitem [0; 0; 1] 2) with (Some 1)
    | change (getitem [1; 0; 0] 2) with (Some 0)
    | change (getitem [0; 1; 0] 2) with (Some 0) ];
    cbn [Z.eqb negb]; unfold_m; rewrite Hc; split; reflexivity.
Qed.

Lemma cmp_then_jeq_jne_witness :
  let s := with_reg init [5; 5; 40; 0; 0; 0; 0; 244] in
  getitem (reg s) 0 = Some 5 /\
  getitem (reg s) 1 = Some 5 /\
  getitem (reg s) 2 = Some 40 /\
  exists f : list Z,
    cmp 0 1 s = Ok PyNone (with_flags s f) /\
    (cmp 0 1 ;; jeq 2 0) s =
      Ok PyNone (with_pc (with_flags s f) (if 5 =? 5 then 40 else pc s + 2)) /\
    (cmp 0 1 ;; jne 2 0) s =
      Ok PyNone (with_pc (with_flags s f) (if 5 =? 5 then pc s + 2 else 40)).
Proof.
  intros s. do 3 (split; [reflexivity|]).
  apply (cmp_then_jeq_jne s 0 1 2 0 5 5 40); reflexivity.
Defined.

(** ** What each handler can touch *)

(** Split a dispatch-table entry into its thirteen cases. *)
Ltac table_cases H :=
  apply lookup_branchtable in H;
  repeat destruct H as [H | H]; destruct H as [-> ->].

Lemma handlers_without_bit4_keep_pc
    (opcode : Z) (h : handler) (operand_a operand_b : Z) (s : CPU) :
  lookup branchtable opcode = Some h ->
  Z.testbit opcode 4 = false ->
  pc (final (h operand_a operand_b s)) = pc s.
Proof.
  intros H Hbit. table_cases H; try discriminate Hbit;
    unfold_handlers; by_cases; reflexivity.
Qed.

(** X7. The opcodes of the table whose bit 4 is 0 belong to handlers that
    never move the program counter: a cycle that fetches one of them and
    returns ends with the program counter exactly [instruction_size]
    beyond the address it fetched from, and that size is 1, 2 or 3. *)
Theorem cycle_without_bit4_steps_by_size
    (s s' : CPU) (instruction operand_a operand_b : Z) :
  fetch s = Ok (instruction, operand_a, operand_b) s ->
  Z.testbit instruction 4 = false ->
  cycle s = Ok tt s' ->
  pc s' = pc s + instruction_size instruction /\
  1 <= instruction_size instruction <= 3.
Proof.
  intros Hf Hbit Hc.
  destruct (cycle_inv _ _ Hc) as (i & a & b & h & r & s1 & Hf' & Hl & Hh & ->).
  rewrite Hf in Hf'. injection Hf' as <- <- <-. rewrite Hbit.
  pose proof (handlers_without_bit4_keep_pc _ _ operand_a operand_b s Hl Hbit) as K.
  rewrite Hh in K. cbn [final] in K. cbn [pc with_pc]. rewrite K.
  split; [reflexivity|].
  clear - Hl Hbit. table_cases Hl; try discriminate Hbit; vm_compute;
    split; discriminate.
Qed.

Lemma cycle_without_bit4_steps_by_size_witness :
  let s := final (load [LDI; 0; 8; HLT] init) in
  let s' := with_pc (with_reg s [8; 0; 0; 0; 0; 0; 0; 244]) 3 in
  fetch s = Ok (LDI, 0, 8) s /\
  Z.testbit LDI 4 = false /\
  cycle s = Ok tt s' /\
  pc s' = pc s + instruction_size LDI /\
  1 <= instruction_size LDI <= 3.
Proof.
  intros s s'. do 3 (split; [reflexivity|]).
  apply (cycle_without_bit4_steps_by_size s s' LDI 0 8); reflexivity.
Defined.

(** X8. Memory is written by PUSH and CALL only: every other handler of
    the table, returning or raising, leaves every cell as it was. *)
Theorem memory_written_only_by_push_and_call
    (opcode : Z) (h : handler) (operand_a operand_b : Z) (s : CPU) :
  lookup branchtable opcode = Some h ->
  opcode <> PUSH -> opcode <> CALL ->
  ram (final (h operand_a operand_b s)) = ram s.
Proof.
  intros H Hpush Hcall. table_cases H; try congruence;
    unfold_handlers; by_cases; reflexivity.
Qed.

Lemma memory_written_only_by_push_and_call_witness :
  let s := with_reg init [0; 0; 0; 0; 0; 0; 0; 10] in
  lookup branchtable POP = Some pop /\
  POP <> PUSH /\ POP <> CALL /\
  ram (final (pop 0 0 s)) = ram s.
Proof.
  intros s. split; [reflexivity|]. do 2 (split; [discriminate|]).
  apply (memory_written_only_by_push_and_call POP pop 0 0 s);
    [reflexivity | discriminate | discriminate].
Defined.

(** X9. HLT, PRN, CMP, JMP, JEQ and JNE never write a register: returning
    or raising, they leave the register file as it was. *)
Theorem registers_kept_by_hlt_prn_cmp_and_jumps
    (opcode : Z) (h : handler) (operand_a operand_b : Z) (s : CPU) :
  lookup branchtable opcode = Some h ->
  opcode = HLT \/ opcode = PRN \/ opcode = CMP \/
  opcode = JMP \/ opcode = JEQ \/ opcode = JNE ->
  reg (final (h operand_a operand_b s)) = reg s.
Proof.
  intros H Hop. table_cases H;
    try (exfalso; repeat destruct Hop as [Hop | Hop]; discriminate Hop);
    unfold_handlers; by_cases; reflexivity.
Qed.

Lemma registers_kept_by_hlt_prn_cmp_and_jumps_witness :
  let s := with_reg init [3; 5; 0; 0; 0; 0; 0; 244] in
  lookup branchtable CMP = Some cmp /\
  (CMP = HLT \/ CMP = PRN \/ CMP = CMP \/ CMP = JMP \/ CMP = JEQ \/ CMP = JNE) /\
  reg (final (cmp 0 1 s)) = reg s.
Proof.
  intros s. split; [reflexivity|]. split; [tauto|].
  apply (registers_kept_by_hlt_prn_cmp_and_jumps CMP cmp 0 1 s);
    [reflexivity | tauto].
Defined.

(** X10. Among the handlers of the table only HLT changes the halted
    flag and only PRN prints: every other one, returning or raising,
    leaves the halted flag, respectively the output, as it was. *)
Theorem only_hlt_halts_only_prn_prints
    (opcode : Z) (h : handler) (operand_a operand_b : Z) (s : CPU) :
  lookup branchtable opcode = Some h ->
  (opcode <> HLT -> halted (final (h operand_a operand_b s)) = halted s) /\
  (opcode <> PRN -> stdout (final (h operand_a operand_b s)) = stdout s).
Proof.
  intros H. table_cases H; split; intros Hne; try congruence;
    unfold_handlers; by_cases; reflexivity.
Qed.

Lemma only_hlt_halts_only_prn_prints_witness :
  lookup branchtable PUSH = Some push /\
  halted (final (push 0 0 init)) = halted init /\
  stdout (final (push 0 0 init)) = stdout init.
Proof.
  split; [reflexivity|].
  destruct (only_hlt_halts_only_prn_prints PUSH push 0 0 init eq_refl)
    as (Hh & Hp).
  split; [apply Hh | apply Hp]; discriminate.
Defined.

(** ** How a run can end *)

Lemma handlers_raise_only_IndexError_or_ValueError
    (opcode : Z) (h : handler) (operand_a operand_b : Z) (s s' : CPU) (e : exn) :
  lookup branchtable opcode = Some h ->
  h operand_a operand_b s = Raise e s' ->
  e = IndexError \/ e = ValueError.
Proof.
  intros H. table_cases H; unfold_handlers; by_cases;
    intros E; try discriminate E; injection E as <- _; auto.
Qed.

Lemma cycle_raises (s s' : CPU) (e : exn) :
  cycle s = Raise e s' ->
  e = IndexError \/ e = ValueError \/ e = SystemExit 1.
Proof.
  unfold cycle, bind. unfold fetch at 1. unfold_m.
  destruct (getitem (ram s) (pc s)) as [i|]; [|intros [= <- _]; auto].
  destruct (getitem (ram s) (pc s + 1)) as [a|]; [|intros [= <- _]; auto].
  destruct (getitem (ram s) (pc s + 2)) as [b|]; [|intros [= <- _]; auto].
  destruct (lookup branchtable i) as [h|] eqn:Hl.
  - unfold dispatch. rewrite Hl.
    destruct (h a b s) as [r s1|e1 s1] eqn:Hh.
    + rewrite advance_run. discriminate.
    + intros [= <- _].
      destruct (handlers_raise_only_IndexError_or_ValueError _ _ _ _ _ _ _ Hl Hh);
        auto.
  - destruct (dispatch_unknown s i a b Hl) as [E | (line & E)];
      rewrite E; intros [= <- _]; auto.
Qed.

(** X11. However many cycles it takes, [run] returns only in a halted
    state, and the only exceptions that end it are [IndexError],
    [ValueError] (from turning an integer of too many digits into text)
    and [SystemExit(1)]: the ALU's "unsupported operation" exception is
    never raised by a running machine. *)
Theorem run_outcomes (fuel : nat) (s : CPU) (r : res unit) :
  run fuel s = Some r ->
  match r with
  | Ok _ s' => halted s' = true
  | Raise e _ => e = IndexError \/ e = ValueError \/ e = SystemExit 1
  end.
Proof.
  revert s. induction fuel as [|n IH]; intros s H; cbn [run] in H.
  - destruct (halted s) eqn:Hh; [|discriminate]. now injection H as <-.
  - destruct (halted s) eqn:Hh; [now injection H as <-|].
    destruct (cycle s) as [[] s1|e s1] eqn:Hc.
    + now apply IH in H.
    + injection H as <-. eapply cycle_raises; eauto.
Qed.

Lemma run_outcomes_witness :
  let s := final (load [LDI; 0; 8; LDI; 1; 9; MUL; 0; 1; PRN; 0; HLT] init) in
  let s' := mkCPU (ram s) [72; 9; 0; 0; 0; 0; 0; 244] true 12 [0; 0; 0]
                  ["72"%string] in
  run 5 s = Some (Ok tt s') /\ halted s' = true.
Proof.
  intros s s'.
  assert (H : run 5 s = Some (Ok tt s')) by (vm_compute; reflexivity).
  split; [exact H|]. exact (run_outcomes 5 s (Ok tt s') H).
Defined.

(** ** More of the stack *)

(** POP, when the stack pointer holds [S'], other than 0xF4, the cell it
    denotes holds [v] and [operand_a] denotes register [k]. *)
Lemma pop_run (s : CPU) (operand_a operand_b S' v : Z) (k : nat) :
  getitem (reg s) SP = Some S' ->
  S' <> 0xF4 ->
  getitem (ram s) S' = Some v ->
  slot (List.length (reg s)) operand_a = Some k ->
  pop operand_a operand_b s =
    Ok PyNone
       (with_reg s (update (update (reg s) k v) 7
                           ((if Nat.eqb k 7 then v else S') + 1))).
Proof.
  intros HS Hne Hv Hk. destruct (slot_SP _ _ HS) as (H7 & HS7).
  unfold pop. unfold_m. rewrite HS. unfold_m.
  destruct (Z.eqb_spec S' 244) as [Heq | _]; [contradiction|]. unfold_m.
  rewrite HS. unfold_m. rewrite Hv. unfold_m.
  rewrite (setitem_slot _ _ _ _ Hk). unfold_m.
  assert (H7' : slot (List.length (update (reg s) k v)) SP = Some 7%nat)
    by now rewrite update_length.
  assert (G : getitem (update (reg s) k v) SP =
              Some (if Nat.eqb k 7 then v else S')).
  { unfold getitem. rewrite H7'. destruct (Nat.eqb_spec k 7) as [-> | Hk7].
    - apply nth_error_update_same. eapply slot_lt; eauto.
    - rewrite nth_error_update_other by exact Hk7. exact HS7. }
  rewrite G. unfold_m. now rewrite (setitem_slot _ _ _ _ H7').
Qed.

(** X12. POP with the stack pointer at [S'], not 0xF4, and [v] in the
    cell it denotes returns with memory untouched.  Into a register other
    than register 7 it stores [v] and moves the stack pointer to
    [S' + 1]; into register 7 itself it leaves the stack pointer at
    [v + 1].  No other register changes. *)
Theorem pop_takes_the_top_of_the_stack
    (s : CPU) (operand_a operand_b S' v : Z) (k : nat) :
  getitem (reg s) SP = Some S' ->
  S' <> 0xF4 ->
  getitem (ram s) S' = Some v ->
  slot (List.length (reg s)) operand_a = Some k ->
  exists s' : CPU,
    pop operand_a operand_b s = Ok PyNone s' /\
    ram s' = ram s /\
    (k <> 7%nat ->
     getitem (reg s') operand_a = Some v /\
     getitem (reg s') SP = Some (S' + 1)) /\
    (k = 7%nat -> getitem (reg s') SP = Some (v + 1)) /\
    (forall j : nat, j <> k -> j <> 7%nat ->
                     nth_error (reg s') j = nth_error (reg s) j).
Proof.
  intros HS Hne Hv Hk. destruct (slot_SP _ _ HS) as (H7 & _).
  eexists. split; [exact (pop_run s _ operand_b _ _ _ HS Hne Hv Hk)|].
  cbn [ram reg with_reg]. split; [reflexivity|].
  assert (H7' : slot (List.length (update (reg s) k v)) SP = Some 7%nat)
    by now rewrite update_length.
  split; [|split].
  - intros Hk7. apply Nat.eqb_neq in Hk7 as Hk7b. rewrite Hk7b. split.
    + unfold getitem. rewrite !update_length, Hk.
      rewrite nth_error_update_other by congruence.
      apply nth_error_update_same. eapply slot_lt; eauto.
    + now apply getitem_update_same.
  - intros ->. cbn [Nat.eqb]. now apply getitem_update_same.
  - intros j Hjk Hj7. rewrite !nth_error_update_other by congruence.
    reflexivity.
Qed.

Lemma pop_takes_the_top_of_the_stack_witness :
  let s := with_ram (with_reg init [0; 0; 0; 0; 0; 0; 0; 243])
                    (update (ram init) 243 99) in
  getitem (reg s) SP = Some 243 /\
  243 <> 0xF4 /\
  getitem (ram s) 243 = Some 99 /\
  slot (List.length (reg s)) 2 = Some 2%nat /\
  exists s' : CPU,
    pop 2 0 s = Ok PyNone s' /\
    ram s' = ram s /\
    (2%nat <> 7%nat ->
     getitem (reg s') 2 = Some 99 /\ getitem (reg s') SP = Some (243 + 1)) /\
    (2%nat = 7%nat -> getitem (reg s') SP = Some (99 + 1)) /\
    (forall j : nat, j <> 2%nat -> j <> 7%nat ->
                     nth_error (reg s') j = nth_error (reg s) j).
Proof.
  intros s. split; [reflexivity|]. split; [discriminate|].
  do 2 (split; [reflexivity|]).
  apply (pop_takes_the_top_of_the_stack s 2 0 243 99 2);
    [reflexivity | discriminate | reflexivity | reflexivity].
Defined.

Lemma slot_outside (len : nat) (i : Z) :
  i < - Z.of_nat len \/ Z.of_nat len <= i -> slot len i = None.
Proof.
  intros H. destruct (slot len i) as [n|] eqn:E; [|reflexivity].
  apply slot_range in E. lia.
Qed.

(** X13. PUSH with [S - 1] outside memory raises [IndexError] when it
    comes to the write: by then register 7 has been decremented, and it
    stays so; memory and everything else are as before. *)
Theorem push_outside_memory
    (s : CPU) (operand_a operand_b S : Z) (k : nat) :
  getitem (reg s) SP = Some S ->
  slot (List.length (reg s)) operand_a = Some k ->
  S - 1 < - Z.of_nat (List.length (ram s)) \/
  Z.of_nat (List.length (ram s)) <= S - 1 ->
  push operand_a operand_b s =
    Raise IndexError (with_reg s (update (reg s) 7 (S - 1))).
Proof.
  intros HS Hk Hout. destruct (slot_SP _ _ HS) as (H7 & _).
  assert (Hk' : slot (List.length (update (reg s) 7 (S - 1))) operand_a = Some k)
    by now rewrite update_length.
  destruct (slot_getitem _ _ _ Hk') as (v & Hv).
  unfold push. unfold_m. rewrite HS. unfold_m.
  rewrite (setitem_slot _ _ _ _ H7). unfold_m. rewrite Hv. unfold_m.
  rewrite (getitem_update_same _ _ _ _ H7). unfold_m.
  unfold setitem. now rewrite (slot_outside _ _ Hout).
Qed.

Lemma push_outside_memory_witness :
  let s := with_reg init [5; 0; 0; 0; 0; 0; 0; 400] in
  getitem (reg s) SP = Some 400 /\
  slot (List.length (reg s)) 0 = Some 0%nat /\
  (400 - 1 < - Z.of_nat (List.length (ram s)) \/
   Z.of_nat (List.length (ram s)) <= 400 - 1) /\
  push 0 0 s = Raise IndexError (with_reg s [5; 0; 0; 0; 0; 0; 0; 399]).
Proof.
  intros s. do 2 (split; [reflexivity|]).
  assert (H : 400 - 1 < - Z.of_nat (List.length (ram s)) \/
              Z.of_nat (List.length (ram s)) <= 400 - 1)
    by (right; vm_compute; discriminate).
  split; [exact H|].
  exact (push_outside_memory s 0 0 400 0 eq_refl eq_refl H).
Defined.

(** X14. The stack is last-in first-out.  With neither register being
    register 7, the two stack slots [S - 1] and [S - 2] being distinct
    cells of memory, and neither of them 0xF4, the sequence PUSH a;
    PUSH b; POP a; POP b returns with the values of the two registers
    exchanged and the stack pointer back at [S]. *)
Theorem push_push_pop_pop_swaps
    (s : CPU) (reg_a reg_b x S va vb : Z) (ka kb m1 m2 : nat) :
  getitem (reg s) SP = Some S ->
  getitem (reg s) reg_a = Some va ->
  getitem (reg s) reg_b = Some vb ->
  slot (List.length (reg s)) reg_a = Some ka ->
  slot (List.length (reg s)) reg_b = Some kb ->
  ka <> 7%nat -> kb <> 7%nat ->
  slot (List.length (ram s)) (S - 1) = Some m1 ->
  slot (List.length (ram s)) (S - 2) = Some m2 ->
  m1 <> m2 ->
  S - 1 <> 0xF4 -> S - 2 <> 0xF4 ->
  exists s' : CPU,
    (push reg_a x ;; push reg_b x ;; pop reg_a x ;; pop reg_b x) s =
      Ok PyNone s' /\
    getitem (reg s') reg_a = Some vb /\
    getitem (reg s') reg_b = Some va /\
    getitem (reg s') SP = Some S.
Proof.
  intros HS Ha Hb Hka Hkb Hka7 Hkb7 Hm1 Hm2 Hm Hg1 Hg2.
  destruct (slot_SP _ _ HS) as (H7 & HS7).
  assert (Hna : nth_error (reg s) ka = Some va)
    by (unfold getitem in Ha; now rewrite Hka in Ha).
  assert (Hnb : nth_error (reg s) kb = Some vb)
    by (unfold getitem in Hb; now rewrite Hkb in Hb).
  (* first PUSH *)
  destruct (push_run s reg_a x S ka m1 HS Hka Hm1) as (v1 & Hv1 & E1).
  rewrite nth_error_update_other in Hv1 by congruence.
  assert (v1 = va) as -> by congruence.
  set (s1 := with_ram (with_reg s (update (reg s) 7 (S - 1)))
                      (update (ram s) m1 va)) in *.
  (* second PUSH *)
  assert (HS1 : getitem (reg s1) SP = Some (S - 1))
    by (cbn [reg s1 with_ram with_reg]; now apply getitem_update_same).
  assert (Hkb1 : slot (List.length (reg s1)) reg_b = Some kb)
    by (cbn [reg s1 with_ram with_reg]; now rewrite update_length).
  assert (Hm21 : slot (List.length (ram s1)) (S - 1 - 1) = Some m2)
    by (cbn [ram s1 with_ram with_reg]; rewrite update_length;
        now replace (S - 1 - 1) with (S - 2) by lia).
  destruct (push_run s1 reg_b x (S - 1) kb m2 HS1 Hkb1 Hm21) as (v2 & Hv2 & E2).
  cbn [reg ram s1 with_ram with_reg] in Hv2, E2.
  rewrite !nth_error_update_other in Hv2 by congruence.
  assert (v2 = vb) as -> by congruence.
  set (R2 := update (update (reg s) 7 (S - 1)) 7 (S - 1 - 1)) in *.
  set (M2 := update (update (ram s) m1 va) m2 vb) in *.
  set (s2 := with_ram (with_reg s1 R2) M2) in *.
  assert (LR2 : List.length R2 = List.length (reg s))
    by (unfold R2; now rewrite !update_length).
  assert (LM2 : List.length M2 = List.length (ram s))
    by (unfold M2; now rewrite !update_length).
  (* first POP *)
  assert (HS2 : getitem (reg s2) SP = Some (S - 1 - 1)).
  { cbn [reg s2 with_ram with_reg]. unfold R2. apply getitem_update_same.
    now rewrite update_length. }
  assert (Hv3 : getitem (ram s2) (S - 1 - 1) = Some vb).
  { cbn [ram s2 with_ram with_reg]. unfold M2. apply getitem_update_same.
    rewrite update_length. now replace (S - 1 - 1) with (S - 2) by lia. }
  assert (Hka2 : slot (List.length (reg s2)) reg_a = Some ka)
    by (cbn [reg s2 with_ram with_reg]; now rewrite LR2).
  assert (Hg2' : S - 1 - 1 <> 244) by lia.
  pose proof (pop_run s2 reg_a x _ _ _ HS2 Hg2' Hv3 Hka2) as E3.
  apply Nat.eqb_neq in Hka7 as Hka7b. rewrite Hka7b in E3.
  cbn [reg s2 with_ram with_reg] in E3.
  set (R3 := update (update R2 ka vb) 7 (S - 1 - 1 + 1)) in *.
  set (s3 := with_reg s2 R3) in *.
  assert (LR3 : List.length R3 = List.length (reg s))
    by (unfold R3; now rewrite !update_length).
  (* second POP *)
  assert (HS3 : getitem (reg s3) SP = Some (S - 1)).
  { cbn [reg s3 with_reg]. unfold R3.
    replace (S - 1) with (S - 1 - 1 + 1) at 2 by lia.
    apply getitem_update_same. now rewrite update_length, LR2. }
  assert (Hv4 : getitem (ram s3) (S - 1) = Some va).
  { cbn [ram s3 s2 with_ram with_reg]. unfold M2.
    rewrite (getitem_update_other _ (S - 1) m2 m1)
      by (rewrite ?update_length; auto).
    now apply getitem_update_same. }
  assert (Hkb3 : slot (List.length (reg s3)) reg_b = Some kb)
    by (cbn [reg s3 with_reg]; now rewrite LR3).
  pose proof (pop_run s3 reg_b x _ _ _ HS3 Hg1 Hv4 Hkb3) as E4.
  apply Nat.eqb_neq in Hkb7 as Hkb7b. rewrite Hkb7b in E4.
  cbn [reg s3 with_reg] in E4.
  eexists. split.
  { rewrite (bind_Ok _ _ _ _ _ E1), (bind_Ok _ _ _ _ _ E2),
      (bind_Ok _ _ _ _ _ E3). exact E4. }
  cbn [reg with_reg].
  assert (L4 : List.length (update (update R3 kb va) 7 (S - 1 + 1)) =
               List.length (reg s)) by now rewrite !update_length.
  unfold getitem. rewrite L4, Hka, Hkb, H7. repeat split.
  - rewrite nth_error_update_other by congruence.
    destruct (Nat.eq_dec ka kb) as [-> | Hab].
    + rewrite nth_error_update_same by (rewrite LR3; eapply slot_lt; eauto).
      congruence.
    + rewrite nth_error_update_other by congruence. unfold R3.
      rewrite nth_error_update_other by congruence.
      apply nth_error_update_same. rewrite LR2. eapply slot_lt; eauto.
  - rewrite nth_error_update_other by congruence.
    apply nth_error_update_same. rewrite LR3. eapply slot_lt; eauto.
  - replace (S - 1 + 1) with S by lia.
    apply nth_error_update_same. rewrite update_length, LR3.
    eapply slot_lt; eauto.
Qed.

Lemma push_push_pop_pop_swaps_witness :
  let s := with_reg init [11; 22; 0; 0; 0; 0; 0; 244] in
  getitem (reg s) SP = Some 244 /\
  getitem (reg s) 0 = Some 11 /\
  getitem (reg s) 1 = Some 22 /\
  slot (List.length (reg s)) 0 = Some 0%nat /\
  slot (List.length (reg s)) 1 = Some 1%nat /\
  0%nat <> 7%nat /\ 1%nat <> 7%nat /\
  slot (List.length (ram s)) (244 - 1) = Some 243%nat /\
  slot (List.length (ram s)) (244 - 2) = Some 242%nat /\
  243%nat <> 242%nat /\
  244 - 1 <> 0xF4 /\ 244 - 2 <> 0xF4 /\
  exists s' : CPU,
    (push 0 0 ;; push 1 0 ;; pop 0 0 ;; pop 1 0) s = Ok PyNone s' /\
    getitem (reg s') 0 = Some 22 /\
    getitem (reg s') 1 = Some 11 /\
    getitem (reg s') SP = Some 244.
Proof.
  intros s. do 5 (split; [reflexivity|]). do 2 (split; [discriminate|]).
  do 2 (split; [reflexivity|]). do 3 (split; [discriminate|]).
  apply (push_push_pop_pop_swaps s 0 1 0 244 11 22 0 1 243 242);
    try reflexivity; discriminate.
Defined.

(** ** Memory accesses *)

(** X15. [ram_write] at an address that denotes a cell returns the value
    written; [ram_read] of that address then returns it too, and any
    address denoting another cell reads as it did before.  At an address
    that denotes no cell both raise [IndexError] and change nothing. *)
Theorem ram_write_then_read (s : CPU) (address value : Z) :
  match slot (List.length (ram s)) address with
  | Some n =>
      let s' := with_ram s (update (ram s) n value) in
      ram_write address value s = Ok value s' /\
      ram_read address s' = Ok value s' /\
      (forall (other : Z) (m : nat),
          slot (List.length (ram s)) other = Some m -> m <> n ->
          getitem (ram s') other = getitem (ram s) other)
  | None =>
      ram_write address value s = Raise IndexError s /\
      ram_read address s = Raise IndexError s
  end.
Proof.
  destruct (slot (List.length (ram s)) address) as [n|] eqn:Hn.
  - cbn zeta. pose proof (getitem_update_same _ _ _ value Hn) as G.
    repeat split.
    + unfold_m. rewrite (setitem_slot _ _ _ _ Hn). unfold_m. now rewrite G.
    + unfold_m. now rewrite G.
    + intros other m Hm Hne. cbn [ram with_ram].
      apply (getitem_update_other _ _ n m); [exact Hm | congruence].
  - unfold_m. unfold setitem, getitem. now rewrite Hn.
Qed.

(** ** Halting *)

(** X16. A running machine that fetches HLT stops in that cycle: [run]
    returns, for any positive number of cycles allowed, in the state where
    only the halted flag, now set, and the program counter, one past the
    HLT, have changed. *)
Theorem hlt_ends_the_run (s : CPU) (operand_a operand_b : Z) :
  halted s = false ->
  fetch s = Ok (HLT, operand_a, operand_b) s ->
  forall fuel : nat,
    run (S fuel) s = Some (Ok tt (with_pc (with_halted s true) (pc s + 1))).
Proof.
  intros Hrun Hf fuel.
  assert (C : cycle s = Ok tt (with_pc (with_halted s true) (pc s + 1))).
  { rewrite (cycle_fetched _ _ _ _ _ Hf). unfold dispatch.
    change (lookup branchtable HLT) with (Some hlt).
    unfold hlt. unfold_m. now rewrite advance_run. }
  cbn [run]. rewrite Hrun, C. now destruct fuel.
Qed.

Lemma hlt_ends_the_run_witness :
  let s := final (load [HLT] init) in
  halted s = false /\
  fetch s = Ok (HLT, 0, 0) s /\
  run 1 s = Some (Ok tt (with_pc (with_halted s true) 1)).
Proof.
  intros s. do 2 (split; [reflexivity|]).
  exact (hlt_ends_the_run s 0 0 eq_refl eq_refl 0%nat).
Defined.

(** ** Below address 0 *)

Lemma slot_negative (len : nat) (i : Z) :
  - Z.of_nat len <= i < 0 ->
  slot len i = Some (Z.to_nat (Z.of_nat len + i)).
Proof.
  intros H. unfold slot.
  replace ((0 <=? i) && (i <? Z.of_nat len)) with false
    by (symmetry; apply andb_false_iff; left; apply Z.leb_gt; lia).
  replace ((- Z.of_nat len <=? i) && (i <? 0)) with true
    by (symmetry; apply andb_true_iff; split;
        [apply Z.leb_le | apply Z.ltb_lt]; lia).
  reflexivity.
Qed.

(** X17. The stack does not stop at address 0.  In a 256-cell memory,
    PUSH of a register other than register 7 with the stack pointer at
    [S] between -255 and 0 returns: the stack pointer becomes [S - 1],
    which is negative, and the value lands near the top of memory, in
    cell [255 + S]. *)
Theorem push_below_zero_wraps
    (s : CPU) (operand_a operand_b S v : Z) (k : nat) :
  List.length (ram s) = 256%nat ->
  getitem (reg s) SP = Some S ->
  -255 <= S <= 0 ->
  slot (List.length (reg s)) operand_a = Some k ->
  k <> 7%nat ->
  getitem (reg s) operand_a = Some v ->
  exists s' : CPU,
    push operand_a operand_b s = Ok PyNone s' /\
    getitem (reg s') SP = Some (S - 1) /\
    nth_error (ram s') (Z.to_nat (255 + S)) = Some v /\
    (forall j : nat, j <> Z.to_nat (255 + S) ->
                     nth_error (ram s') j = nth_error (ram s) j).
Proof.
  intros Hlen HS Hrange Hk Hk7 Hv. destruct (slot_SP _ _ HS) as (H7 & _).
  assert (Hm : slot (List.length (ram s)) (S - 1) = Some (Z.to_nat (255 + S))).
  { rewrite Hlen, slot_negative by lia. f_equal. lia. }
  destruct (push_run s operand_a operand_b S k _ HS Hk Hm) as (w & Hw & E).
  rewrite nth_error_update_other in Hw by congruence.
  unfold getitem in Hv. rewrite Hk in Hv. assert (w = v) as -> by congruence.
  eexists. split; [exact E|]. cbn [ram reg with_ram with_reg].
  split; [now apply getitem_update_same|]. split.
  - apply nth_error_update_same. rewrite Hlen. lia.
  - intros j Hj. apply nth_error_update_other. congruence.
Qed.

Lemma push_below_zero_wraps_witness :
  let s := with_reg init [42; 0; 0; 0; 0; 0; 0; 0] in
  List.length (ram s) = 256%nat /\
  getitem (reg s) SP = Some 0 /\
  -255 <= 0 <= 0 /\
  slot (List.length (reg s)) 0 = Some 0%nat /\
  0%nat <> 7%nat /\
  getitem (reg s) 0 = Some 42 /\
  exists s' : CPU,
    push 0 0 s = Ok PyNone s' /\
    getitem (reg s') SP = Some (0 - 1) /\
    nth_error (ram s') (Z.to_nat (255 + 0)) = Some 42 /\
    (forall j : nat, j <> Z.to_nat (255 + 0) ->
                     nth_error (ram s') j = nth_error (ram s) j).
Proof.
  intros s. do 2 (split; [reflexivity|]). split; [lia|].
  split; [reflexivity|]. split; [discriminate|]. split; [reflexivity|].
  apply (push_below_zero_wraps s 0 0 0 42 0);
    [reflexivity | reflexivity | lia | reflexivity | discriminate | reflexivity].
Defined.

(** ** Decoding *)

(** X18. Whatever integer is fetched as an opcode, known to the table or
    not, negative or beyond a byte, the size the engine derives from it
    is between 1 and 4 and is fixed by bits 7 and 6 alone: it is
    [(instruction / 64) mod 4 + 1]. *)
Theorem instruction_size_range (instruction : Z) :
  instruction_size instruction = (instruction / 64) mod 4 + 1 /\
  1 <= instruction_size instruction <= 4.
Proof.
  assert (E : instruction_size instruction = (instruction / 64) mod 4 + 1).
  { rewrite instruction_size_bits. change (bin_digits 0 "11") with (Z.ones 2).
    rewrite Z.land_ones by lia. rewrite Z.shiftr_div_pow2 by lia.
    reflexivity. }
  split; [exact E|]. rewrite E.
  pose proof (Z.mod_pos_bound (instruction / 64) 4 ltac:(lia)). lia.
Qed.
